(** * Student profile intake and dashboard: a shallow embedding

    The development follows the two Python modules of the application:

    - [pages/Course_Recommendation.py], the intake page.  It collects a
      profile from a form, asks a text-generation service for an analysis,
      lists courses and upserts the profile into a MongoDB collection;
    - [Students_Dashboard.py], the reporting page.  It loads the collection
      into a data frame and derives the aggregates shown on the charts.

    Python dictionaries are finite maps from field names to values, the
    MongoDB collection is the list of its documents in natural order, and the
    page scripts run in a small state-and-exception monad over the database
    and the elements written to the page.  Layout-only calls ([st.columns],
    [st.form], [st.set_page_config], the CSS [st.markdown]) write no data and
    are left out. *)

From Stdlib Require Import ZArith Uint63 Floats.
From stdpp Require Import gmap strings list fin_maps sorting.

Set Warnings "-inexact-float".

(** ** Python values and documents *)

(** Leibniz equality of binary64 floats is decided by the primitive
    comparison of their bit patterns. *)
#[global] Instance float_eq_dec : EqDecision float.
Proof.
  intros x y. destruct (PrimFloat.Leibniz.eqb x y) eqn:E.
  - left. by apply FloatAxioms.Leibniz.eqb_spec.
  - right. intros H. apply FloatAxioms.Leibniz.eqb_spec in H. congruence.
Defined.

(** The values the application stores: text, the integer age, the float
    marks, the two lists of tags, and the [ObjectId] MongoDB adds. *)
Inductive value :=
| VStr (s : string)
| VInt (n : Z)
| VFloat (x : float)
| VList (l : list string)
| VObjectId (n : nat).

#[global] Instance value_eq_dec : EqDecision value.
Proof. solve_decision. Defined.

Abbreviation document := (gmap string value).

(** Truth value of a Python object, as [if x:] tests it. *)
Definition truthy (v : value) : bool :=
  match v with
  | VStr s => negb (bool_decide (s = ""))
  | VInt n => negb (bool_decide (n = 0%Z))
  | VFloat x => negb (PrimFloat.eqb x 0%float)
  | VList l => negb (bool_decide (l = []))
  | VObjectId _ => true
  end.

Definition dict_truthy (d : document) : bool := negb (bool_decide (d = ∅)).

(** ** Exceptions *)

Inductive exn_class :=
| KeyError
| TypeError
| ValueError
| DuplicateKeyError        (* pymongo.errors.DuplicateKeyError *)
| ServiceError             (* any other [Exception] raised by a remote call *)
| Unmodelled.              (* a cell type the frame model does not cover *)

#[global] Instance exn_class_eq_dec : EqDecision exn_class.
Proof. solve_decision. Defined.

Record exn := Exn { exn_cls : exn_class; exn_msg : string }.

#[global] Instance exn_eq_dec : EqDecision exn.
Proof. solve_decision. Defined.

Inductive outcome (A : Type) :=
| Ok (a : A)
| Raise (e : exn).
Arguments Ok {A} a.
Arguments Raise {A} e.

(** ** The MongoDB collection

    [docs] is the collection in natural order (the order [find()] returns),
    [unique_name] records that the unique index on [name] exists and
    [next_oid] is the next fresh [ObjectId]. *)
Record collection := Collection {
  docs : list document;
  unique_name : bool;
  next_oid : nat
}.

Definition empty_collection : collection :=
  {| docs := []; unique_name := false; next_oid := 0 |}.

(** The key a document has in the index on [name] ([None] is null). *)
Definition name_key (d : document) : option value := d !! "name".

Definition index_ok (ds : list document) : bool :=
  bool_decide (NoDup (name_key <$> ds)).

(** The query [{"name": v}]: the field equals [v], or is an array that
    contains [v]. *)
Definition matches_name (v : value) (d : document) : bool :=
  match d !! "name" with
  | Some w =>
      bool_decide (w = v) ||
      match w, v with
      | VList l, VStr s => bool_decide (s ∈ l)
      | _, _ => false
      end
  | None => false
  end.

Fixpoint find_index (v : value) (ds : list document) : option nat :=
  match ds with
  | [] => None
  | d :: ds' => if matches_name v d then Some 0 else S <$> find_index v ds'
  end.

Definition duplicate_key : exn :=
  Exn DuplicateKeyError
    "E11000 duplicate key error collection: student_recommendation_db.students index: name_1".

(** [create_index([("name", ASCENDING)], unique=True)]. *)
Definition create_index (c : collection) : outcome collection :=
  if index_ok (docs c)
  then Ok {| docs := docs c; unique_name := true; next_oid := next_oid c |}
  else Raise duplicate_key.

(** The result object of [update_one]. *)
Record update_result := UpdateResult { upserted_id : option value }.

(** [update_one({"name": v}, {"$set": data}, upsert=True)]: the first
    matching document gets the fields of [data] (its other fields stay);
    without a match a new document is inserted, made of the query field, the
    fields of [data] and a fresh [_id].  A write that would break the unique
    index is refused. *)
Definition update_one (v : value) (data : document) (c : collection)
  : outcome (update_result * collection) :=
  match find_index v (docs c) with
  | Some i =>
      match docs c !! i with
      | Some old =>
          let ds := <[i := data ∪ old]> (docs c) in
          if unique_name c && negb (index_ok ds)
          then Raise duplicate_key
          else Ok (UpdateResult None,
                   {| docs := ds; unique_name := unique_name c;
                      next_oid := next_oid c |})
      | None => Ok (UpdateResult None, c)
      end
  | None =>
      let new := data ∪ {[ "name" := v ]} ∪ {[ "_id" := VObjectId (next_oid c) ]} in
      let ds := docs c ++ [new] in
      if unique_name c && negb (index_ok ds)
      then Raise duplicate_key
      else Ok (UpdateResult (new !! "_id"),
               {| docs := ds; unique_name := unique_name c;
                  next_oid := S (next_oid c) |})
  end.

(** ** The page and the script monad *)

Record course := Course {
  platform : string;
  title : string;
  url : string;
  difficulty : string
}.

(** What a script writes to the page, in order. *)
Inductive ui_event :=
| StTitle (s : string)
| StHeader (s : string)
| StSubheader (s : string)
| StError (s : string)
| StWarning (s : string)
| StSuccess (s : string)
| StInfo (s : string)
| StWrite (parts : list string)
| PieChart (name : string) (counts : gmap string nat)
| BarChart (name : string) (counts : gmap string nat)
| MeanBarChart (name : string) (means : gmap string float)
| BoxPlot (name : string) (ys : list (option value))
| DataFrameTable (rows : list document).

Record world := World {
  db : collection;
  screen : list ui_event
}.

Definition M (A : Type) : Type := world → outcome A * world.

Definition ret {A} (a : A) : M A := λ w, (Ok a, w).

Definition bind {A B} (c : M A) (k : A → M B) : M B :=
  λ w, match c w with
       | (Ok a, w') => k a w'
       | (Raise e, w') => (Raise e, w')
       end.

Definition raise {A} (e : exn) : M A := λ w, (Raise e, w).

(** [try: c  except ...: h e] *)
Definition try_except {A} (c : M A) (h : exn → M A) : M A :=
  λ w, match c w with
       | (Ok a, w') => (Ok a, w')
       | (Raise e, w') => h e w'
       end.

Definition emit (ev : ui_event) : M unit :=
  λ w, (Ok (), {| db := db w; screen := screen w ++ [ev] |}).

Definition lift {A} (o : outcome A) : M A := λ w, (o, w).

Definition get_db : M collection := λ w, (Ok (db w), w).

Definition put_db (c : collection) : M unit :=
  λ w, (Ok (), {| db := c; screen := screen w |}).

Declare Scope py_scope.
Delimit Scope py_scope with py.
Notation "'let*' x ':=' c 'in' k" := (bind c (λ x, k))
  (at level 10, x binder, c at level 100, k at level 200) : py_scope.
Notation "c ';>' k" := (bind c (λ _, k))
  (at level 100, k at level 200, right associativity) : py_scope.
Open Scope py_scope.

Fixpoint for_each {A} (l : list A) (body : A → M unit) : M unit :=
  match l with
  | [] => ret ()
  | x :: l' => body x ;> for_each l' body
  end.

(** [d[k]] on a dictionary. *)
Definition getitem (d : document) (k : string) : outcome value :=
  match d !! k with
  | Some v => Ok v
  | None => Raise (Exn KeyError ("'" +:+ k +:+ "'"))
  end.

(** ** The remote services of one request

    What the two remote collaborators do during a request is an input of the
    model: the text (or the exception) the generation service answers a
    prompt with, and the exceptions, if any, with which a database call
    fails.  A call can fail before the server applies it ([mongo_fault]) or
    after the server applied it, as on a write-concern timeout or a lost
    reply ([mongo_late_fault]).  The second matters for the two writes
    only: a read changes nothing, so a [find] that fails is the same
    failure whenever it happens, and [mongo_fault] covers it. *)
Inductive mongo_op := OpCreateIndex | OpUpdateOne | OpFind.

Definition is_write (op : mongo_op) : bool :=
  match op with
  | OpFind => false
  | OpCreateIndex | OpUpdateOne => true
  end.

Record prompt := Prompt {
  p_education : value;
  p_field : value;
  p_marks : value;
  p_skills : string;
  p_interests : string
}.

Record env := Env {
  generate_content : prompt → outcome string;
  mongo_fault : mongo_op → option exn;
  mongo_late_fault : mongo_op → option exn
}.

(** A database call [c] under the faults of the request: an early fault
    replaces the call, a late fault of a write raises once the call has
    run, and what the call did to the collection stays. *)
Definition mongo_call {A} (e : env) (op : mongo_op) (c : M A) : M A :=
  match mongo_fault e op with
  | Some x => raise x
  | None =>
      match (if is_write op then mongo_late_fault e op else None) with
      | Some x => c ;> raise x
      | None => c
      end
  end.

(** ** Streamlit input widgets

    The browser holds what the user entered; a widget call returns it, kept
    inside the domain the widget enforces. *)
Record form_state := FormState {
  in_name : string;
  in_email : string;
  in_phone : string;
  in_roll_no : string;
  in_age : Z;
  in_gender : nat;                (* position chosen in the select box *)
  in_education_level : nat;
  in_field_of_study : nat;
  in_previous_marks : float;
  in_technical_skills : list nat; (* positions ticked in the multiselect *)
  in_learning_interests : list nat;
  in_submit : bool                (* the form's submit button was pressed *)
}.

Definition text_input (typed : string) : string := typed.

Definition number_input_int (min_value max_value typed : Z) : Z :=
  Z.max min_value (Z.min max_value typed).

Definition number_input_float (min_value max_value typed : float) : float :=
  if PrimFloat.ltb typed min_value then min_value
  else if PrimFloat.ltb max_value typed then max_value
  else typed.

(** A select box returns the option at the chosen position, the first one
    when nothing else was chosen. *)
Definition selectbox (options : list string) (chosen : nat) : string :=
  default (default "" (head options)) (options !! chosen).

(** A multiselect returns the ticked options, each once. *)
Definition multiselect (options : list string) (chosen : list nat) : list string :=
  remove_dups (omap (λ i, options !! i) chosen).

Definition gender_options : list string := ["Select"; "Male"; "Female"; "Other"].

Definition education_level_options : list string :=
  ["High School"; "Undergraduate"; "Postgraduate"; "Professional Degree"; "Doctoral"].

Definition field_of_study_options : list string :=
  ["Computer Science"; "Engineering"; "Data Science"; "Business";
   "Arts & Humanities"; "Social Sciences"; "Natural Sciences"; "Other"].

Definition technical_skills_options : list string :=
  ["Programming"; "Data Analysis"; "Machine Learning"; "Web Development";
   "Cloud Computing"; "Cybersecurity"; "None"].

Definition learning_interests_options : list string :=
  ["Software Development"; "Data Science"; "Artificial Intelligence";
   "Cloud Technologies"; "Digital Marketing"; "Business Analytics";
   "UX/UI Design"; "Cybersecurity"].

(** ** pages/Course_Recommendation.py *)

(** The dictionary [student_data] built from the widget values. *)
Definition student_data (f : form_state) : document :=
  <[ "name" := VStr (text_input (in_name f)) ]> (
  <[ "email" := VStr (text_input (in_email f)) ]> (
  <[ "phone" := VStr (text_input (in_phone f)) ]> (
  <[ "roll_no" := VStr (text_input (in_roll_no f)) ]> (
  <[ "age" := VInt (number_input_int 16 65 (in_age f)) ]> (
  <[ "gender" := VStr (selectbox gender_options (in_gender f)) ]> (
  <[ "education_level" :=
       VStr (selectbox education_level_options (in_education_level f)) ]> (
  <[ "field_of_study" :=
       VStr (selectbox field_of_study_options (in_field_of_study f)) ]> (
  <[ "previous_marks" :=
       VFloat (number_input_float 0%float 100%float (in_previous_marks f)) ]> (
  <[ "technical_skills" :=
       VList (multiselect technical_skills_options (in_technical_skills f)) ]> (
  <[ "learning_interests" :=
       VList (multiselect learning_interests_options (in_learning_interests f)) ]>
  ∅)))))))))).

Definition collect_student_details (f : form_state) : M (option document) :=
  emit (StHeader "Student Profile & Learning Recommendation") ;>
  let name := text_input (in_name f) in
  emit (StSubheader "Academic Information") ;>
  emit (StSubheader "Performance & Skills") ;>
  if in_submit f then
    if negb (truthy (VStr name)) then
      emit (StError "Full Name is required") ;>
      ret None
    else
      ret (Some (student_data f))
  else
    ret None.

(** [', '.join(x)]: a list of strings is joined; a string is joined
    character by character; anything else is not iterable. *)
Fixpoint chars (s : string) : list string :=
  match s with
  | EmptyString => []
  | String a s' => String a EmptyString :: chars s'
  end.

Definition iterate (v : value) : outcome (list string) :=
  match v with
  | VList l => Ok l
  | VStr s => Ok (chars s)
  | VInt _ => Raise (Exn TypeError "'int' object is not iterable")
  | VFloat _ => Raise (Exn TypeError "'float' object is not iterable")
  | VObjectId _ => Raise (Exn TypeError "'ObjectId' object is not iterable")
  end.

Definition join (sep : string) (v : value) : outcome string :=
  match iterate v with
  | Ok l => Ok (String.concat sep l)
  | Raise e => Raise e
  end.

(** The prompt is the fixed template with its five holes filled; the holes
    are kept as they are, the rendering of the marks by [str] is not spelled
    out. *)
Definition analyze_student_profile (e : env) (student_data : document) : M string :=
  let* education := lift (getitem student_data "education_level") in
  let* field := lift (getitem student_data "field_of_study") in
  let* marks := lift (getitem student_data "previous_marks") in
  let* skills_v := lift (getitem student_data "technical_skills") in
  let* skills := lift (join ", " skills_v) in
  let* interests_v := lift (getitem student_data "learning_interests") in
  let* interests := lift (join ", " interests_v) in
  lift (generate_content e
          {| p_education := education; p_field := field; p_marks := marks;
             p_skills := skills; p_interests := interests |}).

(** The course list does not look at the analysis. *)
Definition recommend_courses (analysis : string) : list course :=
  [ {| platform := "Coursera";
       title := "Machine Learning Specialization";
       url := "https://www.coursera.org/specializations/machine-learning";
       difficulty := "Intermediate" |};
    {| platform := "Udemy";
       title := "Complete Python Bootcamp";
       url := "https://www.udemy.com/course/complete-python-bootcamp/";
       difficulty := "Beginner" |} ].

(** [{x}] inside a message; the form only ever puts a string there. *)
Definition str_value (v : value) : string :=
  match v with
  | VStr s => s
  | _ => "<value>"
  end.

Definition option_truthy (o : option value) : bool :=
  match o with
  | Some v => truthy v
  | None => false
  end.

Definition save_student_data (e : env) (student_data : document) : M unit :=
  try_except
    (let* name := lift (getitem student_data "name") in
     let* result :=
       mongo_call e OpUpdateOne
         (let* c := get_db in
          let* rc := lift (update_one name student_data c) in
          put_db (snd rc) ;> ret (fst rc)) in
     if option_truthy (upserted_id result) then
       let* name' := lift (getitem student_data "name") in
       emit (StSuccess ("New student profile created for " +:+ str_value name'))
     else
       let* name' := lift (getitem student_data "name") in
       emit (StInfo ("Profile updated for " +:+ str_value name')))
    (λ x,
       match exn_cls x with
       | DuplicateKeyError =>
           let* name' := lift (getitem student_data "name") in
           emit (StError ("Error: A profile with the name " +:+ str_value name'
                          +:+ " already exists."))
       | _ =>
           emit (StError ("An error occurred while saving the profile: "
                          +:+ exn_msg x))
       end).

Definition run (e : env) (f : form_state) : M unit :=
  emit (StTitle "Personalized Learning Recommendation Platform") ;>
  let* student_data := collect_student_details f in
  match student_data with
  | Some d =>
      if dict_truthy d then
        let* analysis := analyze_student_profile e d in
        emit (StWrite ["Profile Analysis:"; analysis]) ;>
        let recommended_courses := recommend_courses analysis in
        emit (StSubheader "Recommended Courses") ;>
        for_each recommended_courses (λ course,
          emit (StWrite ["**" +:+ title course +:+ "** on " +:+ platform course]) ;>
          emit (StWrite ["Difficulty: " +:+ difficulty course]) ;>
          emit (StWrite ["[Enroll Now](" +:+ url course +:+ ")"])) ;>
        save_student_data e d
      else ret ()
  | None => ret ()
  end.

(** [StudentRecommendationApp.__init__]: the part that touches the
    collection, the unique index on [name]. *)
Definition init_app (e : env) : M unit :=
  mongo_call e OpCreateIndex
    (let* c := get_db in
     let* c' := lift (create_index c) in
     put_db c').

Definition main (e : env) (f : form_state) : M unit :=
  init_app e ;> run e f.

(** One request of the intake page: the script runs on a fresh page over
    the current collection. *)
Definition serve (c : collection) (r : env * form_state) : collection :=
  db (snd (main (fst r) (snd r) {| db := c; screen := [] |})).

Definition serve_all (rs : list (env * form_state)) : collection :=
  foldl serve empty_collection rs.

(** ** pandas: frames, [value_counts], [groupby(...).mean()]

    A frame is the list of its rows; a row keeps the fields its record had,
    and a field a record lacks is a missing (NaN) cell. *)
Abbreviation frame := (list document).

Definition DataFrame (records : list document) : frame := records.

Definition columns (df : frame) : gset string := ⋃ (dom <$> df).

Definition drop (c : string) (df : frame) : frame := delete c <$> df.

(** [df.empty]: no rows or no columns. *)
Definition df_empty (df : frame) : bool :=
  bool_decide (df = []) || bool_decide (columns df = ∅).

(** [df[c]] *)
Definition column (c : string) (df : frame) : outcome (list (option value)) :=
  if bool_decide (c ∈ columns df)
  then Ok ((λ row : document, row !! c) <$> df)
  else Raise (Exn KeyError ("'" +:+ c +:+ "'")).

Definition outcome_bind {A B} (o : outcome A) (k : A → outcome B) : outcome B :=
  match o with
  | Ok a => k a
  | Raise e => Raise e
  end.

Fixpoint outcome_map {A B} (f : A → outcome B) (l : list A) : outcome (list B) :=
  match l with
  | [] => Ok []
  | x :: l' =>
      outcome_bind (f x) (λ y,
      outcome_bind (outcome_map f l') (λ ys, Ok (y :: ys)))
  end.

(** The label of a cell of a grouping column: a string labels its row, a
    missing cell or a NaN labels nothing, a list cannot be hashed.  Other
    labels that are not strings are outside this model; the form writes
    none. *)
Definition label_cell (c : option value) : outcome (option string) :=
  match c with
  | None => Ok None
  | Some (VStr s) => Ok (Some s)
  | Some (VList _) => Raise (Exn TypeError "unhashable type: 'list'")
  | Some (VFloat x) =>
      if PrimFloat.is_nan x then Ok None
      else Raise (Exn Unmodelled "label that is not a string")
  | Some _ => Raise (Exn Unmodelled "label that is not a string")
  end.

(** The number in a cell of a numeric column; NaN counts as missing.
    Numbers that are not floats are outside this model. *)
Definition mark_cell (c : option value) : outcome (option float) :=
  match c with
  | None => Ok None
  | Some (VFloat x) => Ok (if PrimFloat.is_nan x then None else Some x)
  | Some _ => Raise (Exn Unmodelled "mark that is not a float")
  end.

Definition count_label (acc : gmap string nat) (s : string) : gmap string nat :=
  <[ s := S (default 0 (acc !! s)) ]> acc.

(** [pd.Series(labels).value_counts()] as the map from a label to its
    count; the order of the rows of the result is not part of it. *)
Definition tally (labels : list string) : gmap string nat :=
  foldl count_label ∅ labels.

Definition value_counts (cells : list (option value)) : outcome (gmap string nat) :=
  outcome_bind (outcome_map label_cell cells) (λ ls, Ok (tally (omap id ls))).

(** [groupby]: the values of each label, in row order. *)
Definition add_to_group (acc : gmap string (list float))
    (row : option string * option float) : gmap string (list float) :=
  match row.1 with
  | Some s => <[ s := default [] (acc !! s) ++ option_list row.2 ]> acc
  | None => acc
  end.

Definition groupby (labels : list (option string)) (vals : list (option float))
  : gmap string (list float) :=
  foldl add_to_group ∅ (zip labels vals).

(** [group_mean] of pandas: the sum of a group is accumulated in row order
    with Kahan compensation and divided by the number of observations. *)
Definition kahan_step (acc : float * float) (val : float) : float * float :=
  let '(sumx, compensation) := acc in
  let y := (val - compensation)%float in
  let t := (sumx + y)%float in
  let c := (t - sumx - y)%float in
  (t, if PrimFloat.is_nan c then 0%float else c).

Definition float_of_nat (n : nat) : float :=
  PrimFloat.of_uint63 (Uint63.of_Z (Z.of_nat n)).

Definition group_mean (vals : list float) : float :=
  match vals with
  | [] => PrimFloat.nan
  | _ => ((foldl kahan_step (0%float, 0%float) vals).1 / float_of_nat (length vals))%float
  end.

Definition groupby_cells (label_cells value_cells : list (option value))
  : outcome (gmap string (list float)) :=
  outcome_bind (outcome_map label_cell label_cells) (λ ls,
  outcome_bind (outcome_map mark_cell value_cells) (λ ms,
  Ok (groupby ls ms))).

(** [[x for xs in cells for x in xs]] *)
Definition iterate_cell (c : option value) : outcome (list string) :=
  match c with
  | None => Raise (Exn TypeError "'float' object is not iterable")
  | Some v => iterate v
  end.

Definition flatten (cells : list (option value)) : outcome (list string) :=
  outcome_bind (outcome_map iterate_cell cells) (λ ls, Ok (concat ls)).

(** ** Students_Dashboard.py *)

Definition get_students_dataframe (e : env) : M frame :=
  let* students_data :=
    mongo_call e OpFind (let* c := get_db in ret (docs c)) in
  if negb (bool_decide (students_data = []))
  then ret (drop "_id" (DataFrame students_data))
  else ret (DataFrame []).

(** The aggregates of [render_dashboard], one per chart. *)
Definition education_counts (df : frame) : outcome (gmap string nat) :=
  outcome_bind (column "education_level" df) value_counts.

Definition field_counts (df : frame) : outcome (gmap string nat) :=
  outcome_bind (column "field_of_study" df) value_counts.

(** [df.groupby('education_level')['previous_marks']] *)
Definition grouped_marks (df : frame) : outcome (gmap string (list float)) :=
  outcome_bind (column "education_level" df) (λ ls,
  outcome_bind (column "previous_marks" df) (λ ms,
  groupby_cells ls ms)).

Definition avg_marks (df : frame) : outcome (gmap string float) :=
  outcome_bind (grouped_marks df) (λ groups, Ok (group_mean <$> groups)).

Definition skill_counts (df : frame) : outcome (gmap string nat) :=
  outcome_bind (column "technical_skills" df) (λ cells,
  outcome_bind (flatten cells) (λ all_skills, Ok (tally all_skills))).

Definition interest_counts (df : frame) : outcome (gmap string nat) :=
  outcome_bind (column "learning_interests" df) (λ cells,
  outcome_bind (flatten cells) (λ all_interests, Ok (tally all_interests))).

(** [px.bar(x=series.index, y=series.values)]: with an empty series both
    arguments are empty sequences, which plotly express takes for lists of
    column names on both axes and refuses.  [px.pie(values=..., names=...)]
    has no such reading of its arguments. *)
Definition px_bar_empty : exn :=
  Exn ValueError
    "Cannot accept list of column references or list of columns for both `x` and `y`.".

Definition px_bar (name : string) (counts : gmap string nat) : outcome ui_event :=
  if bool_decide (counts = ∅) then Raise px_bar_empty
  else Ok (BarChart name counts).

Definition px_bar_means (name : string) (means : gmap string float)
  : outcome ui_event :=
  if bool_decide (means = ∅) then Raise px_bar_empty
  else Ok (MeanBarChart name means).

Definition box_marks (df : frame) : outcome (list (option value)) :=
  match column "previous_marks" df with
  | Ok ys => Ok ys
  | Raise _ => Raise (Exn ValueError "Value of 'y' is not the name of a column in 'data_frame'")
  end.

(** The charts drawn once the frame is known not to be empty. *)
Definition render_charts (df : frame) : M unit :=
  emit (StSubheader "Education Level Distribution") ;>
  let* by_education := lift (education_counts df) in
  emit (PieChart "Students by Education Level" by_education) ;>
  emit (StSubheader "Field of Study Breakdown") ;>
  let* by_field := lift (field_counts df) in
  let* fig_field := lift (px_bar "Students Across Different Fields" by_field) in
  emit fig_field ;>
  emit (StSubheader "Performance Analysis") ;>
  let* ys := lift (box_marks df) in
  emit (BoxPlot "Previous Marks Distribution" ys) ;>
  let* means := lift (avg_marks df) in
  let* fig_avg_marks :=
    lift (px_bar_means "Average Marks by Education Level" means) in
  emit fig_avg_marks ;>
  emit (StSubheader "Technical Skills Landscape") ;>
  let* by_skill := lift (skill_counts df) in
  let* fig_skills := lift (px_bar "Distribution of Technical Skills" by_skill) in
  emit fig_skills ;>
  emit (StSubheader "Learning Interests Overview") ;>
  let* by_interest := lift (interest_counts df) in
  emit (PieChart "Student Learning Interests" by_interest) ;>
  emit (StSubheader "Student Details") ;>
  emit (DataFrameTable df).

Definition render_dashboard (e : env) : M unit :=
  emit (StTitle "📊 Student Insights Dashboard") ;>
  let* df := get_students_dataframe e in
  if df_empty df then
    emit (StWarning "No student data available.")
  else
    render_charts df.

(** ** Vocabulary of the statements *)

(** The document the collection holds for a submitted form: the profile
    with the [_id] it got when it was first inserted. *)
Definition stored (oid : nat) (f : form_state) : document :=
  <[ "_id" := VObjectId oid ]> (student_data f).

Definition app_doc (d : document) : Prop := ∃ oid f, d = stored oid f.

(** What holds of a collection only this application wrote to. *)
Definition store_inv (c : collection) : Prop :=
  Forall app_doc (docs c) ∧ NoDup (name_key <$> docs c).

(** The holes of the prompt for a submitted form. *)
Definition prompt_of (f : form_state) : prompt :=
  {| p_education := VStr (selectbox education_level_options (in_education_level f));
     p_field := VStr (selectbox field_of_study_options (in_field_of_study f));
     p_marks := VFloat (number_input_float 0%float 100%float (in_previous_marks f));
     p_skills :=
       String.concat ", " (multiselect technical_skills_options (in_technical_skills f));
     p_interests :=
       String.concat ", " (multiselect learning_interests_options (in_learning_interests f)) |}.

(** A request during which both remote services answer. *)
Definition healthy (e : env) (f : form_state) : Prop :=
  (∃ text, generate_content e (prompt_of f) = Ok text) ∧
  ∀ op, mongo_fault e op = None ∧ mongo_late_fault e op = None.

Definition is_chart (ev : ui_event) : bool :=
  match ev with
  | PieChart _ _ | BarChart _ _ | MeanBarChart _ _ | BoxPlot _ _
  | DataFrameTable _ => true
  | _ => false
  end.

Definition is_error (ev : ui_event) : bool :=
  match ev with
  | StError _ => true
  | _ => false
  end.


(** The sum of a group taken left to right without compensation, for
    comparison with [group_mean]. *)
Definition plain_mean (vals : list float) : float :=
  (foldl PrimFloat.add 0%float vals / float_of_nat (length vals))%float.

(** ** Vocabulary of the proofs and sample submissions *)

(** The result of the form: a profile exactly when the button was pressed
    and a name was typed. *)
Definition collected (f : form_state) : option document :=
  if in_submit f then
    if bool_decide (in_name f = "") then None else Some (student_data f)
  else None.

Definition form_events (f : form_state) : list ui_event :=
  [StHeader "Student Profile & Learning Recommendation";
   StSubheader "Academic Information";
   StSubheader "Performance & Skills"]
  ++ (if in_submit f && bool_decide (in_name f = "")
      then [StError "Full Name is required"] else []).

Definition saved_message (r : update_result) (f : form_state) : ui_event :=
  if option_truthy (upserted_id r)
  then StSuccess ("New student profile created for " +:+ in_name f)
  else StInfo ("Profile updated for " +:+ in_name f).

(** The error box for an exception raised by the upsert. *)
Definition failure_message (x : exn) (f : form_state) : ui_event :=
  StError (if decide (exn_cls x = DuplicateKeyError)
           then "Error: A profile with the name " +:+ in_name f
                +:+ " already exists."
           else "An error occurred while saving the profile: " +:+ exn_msg x).

Definition course_events : list ui_event :=
  [StSubheader "Recommended Courses";
   StWrite ["**Machine Learning Specialization** on Coursera"];
   StWrite ["Difficulty: Intermediate"];
   StWrite ["[Enroll Now](https://www.coursera.org/specializations/machine-learning)"];
   StWrite ["**Complete Python Bootcamp** on Udemy"];
   StWrite ["Difficulty: Beginner"];
   StWrite ["[Enroll Now](https://www.udemy.com/course/complete-python-bootcamp/)"]].

Definition run_title : ui_event :=
  StTitle "Personalized Learning Recommendation Platform".

(** The collection once [__init__] has declared the unique index. *)
Definition indexed (c : collection) : collection :=
  {| docs := docs c; unique_name := true; next_oid := next_oid c |}.

Definition education_of (f : form_state) : string :=
  selectbox education_level_options (in_education_level f).

Definition field_of (f : form_state) : string :=
  selectbox field_of_study_options (in_field_of_study f).

Definition skills_of (f : form_state) : list string :=
  multiselect technical_skills_options (in_technical_skills f).

Definition interests_of (f : form_state) : list string :=
  multiselect learning_interests_options (in_learning_interests f).

Definition mark_of (f : form_state) : option float :=
  let x := number_input_float 0%float 100%float (in_previous_marks f) in
  if PrimFloat.is_nan x then None else Some x.

Definition occurrences (s : string) (l : list string) : nat :=
  length (filter (λ x, x = s) l).

Definition marks_of (s : string) (rows : list (option string * option float))
  : list float :=
  rows ≫= (λ r, if decide (r.1 = Some s) then option_list r.2 else []).

Definition dashboard_title : ui_event := StTitle "📊 Student Insights Dashboard".

(** Three undergraduates and their marks. *)
Definition ada : form_state :=
  {| in_name := "Ada"; in_email := "ada@example.com"; in_phone := "";
     in_roll_no := "R1"; in_age := 20; in_gender := 2;
     in_education_level := 1; in_field_of_study := 0;
     in_previous_marks := 3.1%float;
     in_technical_skills := [0; 4]; in_learning_interests := [1];
     in_submit := true |}.

Definition bob : form_state :=
  {| in_name := "Bob"; in_email := "bob@example.com"; in_phone := "";
     in_roll_no := "R2"; in_age := 21; in_gender := 1;
     in_education_level := 1; in_field_of_study := 1;
     in_previous_marks := 99.4%float;
     in_technical_skills := [0]; in_learning_interests := [];
     in_submit := true |}.

Definition cyd : form_state :=
  {| in_name := "Cyd"; in_email := "cyd@example.com"; in_phone := "";
     in_roll_no := "R3"; in_age := 22; in_gender := 3;
     in_education_level := 1; in_field_of_study := 2;
     in_previous_marks := 83.2%float;
     in_technical_skills := []; in_learning_interests := [0];
     in_submit := true |}.

Definition generation_down : env :=
  {| generate_content := λ _, Raise (Exn ServiceError "503 Service Unavailable");
     mongo_fault := λ _, None;
     mongo_late_fault := λ _, None |}.

Definition all_up : env :=
  {| generate_content := λ _, Ok "Recommended: keep learning.";
     mongo_fault := λ _, None;
     mongo_late_fault := λ _, None |}.

Definition database_down : env :=
  {| generate_content := λ _, Ok "Recommended: keep learning.";
     mongo_fault := λ op, match op with
                          | OpUpdateOne => Some (Exn ServiceError "connection timed out")
                          | _ => None
                          end;
     mongo_late_fault := λ _, None |}.

(** Bob submits a second time, with other details. *)
Definition bob_again : form_state :=
  {| in_name := "Bob"; in_email := "robert@example.com"; in_phone := "555";
     in_roll_no := "R2"; in_age := 22; in_gender := 1;
     in_education_level := 2; in_field_of_study := 2;
     in_previous_marks := 75%float;
     in_technical_skills := [1; 2]; in_learning_interests := [2];
     in_submit := true |}.

(** A form sent without a name. *)
Definition unnamed : form_state :=
  {| in_name := ""; in_email := "who@example.com"; in_phone := "";
     in_roll_no := ""; in_age := 30; in_gender := 0;
     in_education_level := 0; in_field_of_study := 0;
     in_previous_marks := 40%float;
     in_technical_skills := []; in_learning_interests := [];
     in_submit := true |}.


Definition fresh_world : world := {| db := empty_collection; screen := [] |}.

(** The count a page element shows for a label. *)
Definition chart_count (label : string) (ev : ui_event) : nat :=
  match ev with
  | PieChart _ counts | BarChart _ counts => default 0 (counts !! label)
  | _ => 0
  end.

(** The eleven fields of a profile. *)
Definition profile_keys : gset string :=
  list_to_set ["name"; "email"; "phone"; "roll_no"; "age"; "gender";
               "education_level"; "field_of_study"; "previous_marks";
               "technical_skills"; "learning_interests"].

(** The page of a request that saved a profile. *)
Definition intake_events (f : form_state) (text : string) (r : update_result)
  : list ui_event :=
  (run_title :: form_events f)
  ++ (StWrite ["Profile Analysis:"; text] :: course_events)
  ++ [saved_message r f].

(** The sum of the counts of a chart. *)
Definition total (counts : gmap string nat) : nat :=
  map_fold (λ _ n acc, n + acc) 0 counts.

(** A script that leaves the collection as it found it. *)
Definition keeps_db {A} (c : M A) : Prop := ∀ w, db (c w).2 = db w.

(** The page of the dashboard below its title, down to the heading of the
    skills chart, for the frame of the profiles [fs] and the means
    [means]. *)
Definition upper_chart_events (fs : list form_state) (means : gmap string float)
  : list ui_event :=
  [StSubheader "Education Level Distribution";
   PieChart "Students by Education Level" (tally (education_of <$> fs));
   StSubheader "Field of Study Breakdown";
   BarChart "Students Across Different Fields" (tally (field_of <$> fs));
   StSubheader "Performance Analysis";
   BoxPlot "Previous Marks Distribution"
     ((λ f, Some (VFloat (number_input_float 0%float 100%float
                            (in_previous_marks f)))) <$> fs);
   MeanBarChart "Average Marks by Education Level" means;
   StSubheader "Technical Skills Landscape"].

(** The rest of the page, from the skills chart on. *)
Definition lower_chart_events (fs : list form_state) : list ui_event :=
  [BarChart "Distribution of Technical Skills" (tally (fs ≫= skills_of));
   StSubheader "Learning Interests Overview";
   PieChart "Student Learning Interests" (tally (fs ≫= interests_of));
   StSubheader "Student Details";
   DataFrameTable (student_data <$> fs)].

(** The same submission under another name and other contact details. *)
Definition ada_as_zed : form_state :=
  {| in_name := "Zed"; in_email := "zed@example.com"; in_phone := "777";
     in_roll_no := "R9"; in_age := 44; in_gender := 1;
     in_education_level := 1; in_field_of_study := 0;
     in_previous_marks := 3.1%float;
     in_technical_skills := [0; 4]; in_learning_interests := [1];
     in_submit := true |}.

(** Bob's form before the button is pressed. *)
Definition bob_typing : form_state :=
  {| in_name := "Bob"; in_email := "bob@example.com"; in_phone := "";
     in_roll_no := "R2"; in_age := 21; in_gender := 1;
     in_education_level := 1; in_field_of_study := 1;
     in_previous_marks := 99.4%float;
     in_technical_skills := [0]; in_learning_interests := [];
     in_submit := false |}.

(** The domains the form keeps its fields in. *)
Definition in_form_domains (d : document) : Prop :=
  dom d = profile_keys
  ∧ (∃ a, d !! "age" = Some (VInt a) ∧ (16 ≤ a ≤ 65)%Z)
  ∧ (∃ m, d !! "previous_marks" = Some (VFloat m)
          ∧ PrimFloat.ltb m 0%float = false
          ∧ PrimFloat.ltb 100%float m = false)
  ∧ (∃ s, d !! "gender" = Some (VStr s) ∧ s ∈ gender_options)
  ∧ (∃ s, d !! "education_level" = Some (VStr s) ∧ s ∈ education_level_options)
  ∧ (∃ s, d !! "field_of_study" = Some (VStr s) ∧ s ∈ field_of_study_options)
  ∧ (∃ l, d !! "technical_skills" = Some (VList l)
          ∧ l ⊆ technical_skills_options)
  ∧ (∃ l, d !! "learning_interests" = Some (VList l)
          ∧ l ⊆ learning_interests_options).

(** A request during which [find] fails. *)
Definition find_down : env :=
  {| generate_content := λ _, Ok "Recommended: keep learning.";
     mongo_fault := λ op, match op with
                          | OpFind => Some (Exn ServiceError "no servers found")
                          | _ => None
                          end;
     mongo_late_fault := λ _, None |}.

(** A request during which the upsert is applied but its reply is lost. *)
Definition reply_lost : env :=
  {| generate_content := λ _, Ok "Recommended: keep learning.";
     mongo_fault := λ _, None;
     mongo_late_fault := λ op, match op with
                               | OpUpdateOne => Some (Exn ServiceError "operation timed out")
                               | _ => None
                               end |}.







Ltac script :=
  unfold bind, ret, raise, emit, lift, get_db, put_db, try_except, mongo_call;
  simpl.

(** * Facts about the profile dictionary *)

Section student_data_facts.
Variable f : form_state.

Lemma student_data_name : student_data f !! "name" = Some (VStr (in_name f)).
Proof. unfold student_data. by rewrite lookup_insert_eq. Qed.

Lemma student_data_gender :
  student_data f !! "gender" = Some (VStr (selectbox gender_options (in_gender f))).
Proof.
  unfold student_data. rewrite !lookup_insert_ne by done.
  by rewrite lookup_insert_eq.
Qed.

Lemma student_data_education :
  student_data f !! "education_level"
  = Some (VStr (selectbox education_level_options (in_education_level f))).
Proof.
  unfold student_data. rewrite !lookup_insert_ne by done.
  by rewrite lookup_insert_eq.
Qed.

Lemma student_data_field :
  student_data f !! "field_of_study"
  = Some (VStr (selectbox field_of_study_options (in_field_of_study f))).
Proof.
  unfold student_data. rewrite !lookup_insert_ne by done.
  by rewrite lookup_insert_eq.
Qed.

Lemma student_data_marks :
  student_data f !! "previous_marks"
  = Some (VFloat (number_input_float 0%float 100%float (in_previous_marks f))).
Proof.
  unfold student_data. rewrite !lookup_insert_ne by done.
  by rewrite lookup_insert_eq.
Qed.

Lemma student_data_skills :
  student_data f !! "technical_skills"
  = Some (VList (multiselect technical_skills_options (in_technical_skills f))).
Proof.
  unfold student_data. rewrite !lookup_insert_ne by done.
  by rewrite lookup_insert_eq.
Qed.

Lemma student_data_interests :
  student_data f !! "learning_interests"
  = Some (VList (multiselect learning_interests_options (in_learning_interests f))).
Proof.
  unfold student_data. rewrite !lookup_insert_ne by done.
  by rewrite lookup_insert_eq.
Qed.

Lemma student_data_no_id : student_data f !! "_id" = None.
Proof.
  unfold student_data. rewrite !lookup_insert_ne by done. apply lookup_empty.
Qed.

Lemma student_data_truthy : dict_truthy (student_data f) = true.
Proof.
  unfold dict_truthy. rewrite bool_decide_eq_false_2; [done|].
  intros E. pose proof student_data_name as N. rewrite E in N.
  by rewrite lookup_empty in N.
Qed.

Lemma student_data_same_fields f' : dom (student_data f) = dom (student_data f').
Proof. unfold student_data. by rewrite !dom_insert_L. Qed.
End student_data_facts.

Lemma stored_name oid f : name_key (stored oid f) = Some (VStr (in_name f)).
Proof.
  unfold name_key, stored. rewrite lookup_insert_ne by done.
  apply student_data_name.
Qed.

Lemma drop_id_stored oid f : delete "_id" (stored oid f) = student_data f.
Proof.
  unfold stored. rewrite delete_insert_eq.
  apply delete_id, student_data_no_id.
Qed.

(** [$set] with a whole profile on a stored profile replaces every field
    but [_id]: both dictionaries have the same eleven keys. *)
Lemma set_replaces_profile oid f f' :
  student_data f ∪ stored oid f' = stored oid f.
Proof.
  apply map_eq. intros k. unfold stored.
  destruct (decide (k = "_id")) as [->|Hk].
  - rewrite lookup_union_r by apply student_data_no_id.
    by rewrite !lookup_insert_eq.
  - rewrite (lookup_insert_ne (student_data f)) by done.
    destruct (student_data f !! k) as [v|] eqn:E.
    + by apply lookup_union_Some_l.
    + rewrite lookup_union_r by done.
      rewrite lookup_insert_ne by done.
      apply not_elem_of_dom. rewrite (student_data_same_fields f' f).
      by apply not_elem_of_dom.
Qed.

(** The document an upsert inserts for a new name. *)
Lemma upsert_inserts_profile oid f :
  student_data f ∪ {[ "name" := VStr (in_name f) ]} ∪ {[ "_id" := VObjectId oid ]}
  = stored oid f.
Proof.
  apply map_eq. intros k. unfold stored.
  destruct (decide (k = "_id")) as [->|Hk].
  - rewrite lookup_insert_eq.
    rewrite lookup_union_r.
    + by rewrite lookup_singleton_eq.
    + rewrite lookup_union_None. split; [apply student_data_no_id|].
      by rewrite lookup_singleton_ne.
  - rewrite lookup_insert_ne by done.
    destruct (student_data f !! k) as [v|] eqn:E.
    + apply lookup_union_Some_l. by apply lookup_union_Some_l.
    + rewrite lookup_union_None. split.
      * rewrite lookup_union_None. split; [done|].
        apply lookup_singleton_None. intros <-.
        by rewrite student_data_name in E.
      * by rewrite lookup_singleton_ne.
Qed.

(** * The collection under upserts by name *)

Lemma matches_name_app_doc n oid f :
  matches_name (VStr n) (stored oid f) = bool_decide (in_name f = n).
Proof.
  unfold matches_name. fold (name_key (stored oid f)). rewrite stored_name.
  rewrite orb_false_r. apply bool_decide_ext. split; congruence.
Qed.

Lemma find_index_Some v ds i :
  find_index v ds = Some i →
  ∃ l1 d l2, ds = l1 ++ d :: l2 ∧ length l1 = i ∧ matches_name v d = true.
Proof.
  revert i. induction ds as [|d ds IH]; intros i; simpl; [done|].
  destruct (matches_name v d) eqn:E.
  - intros [= <-]. by exists [], d, ds.
  - destruct (find_index v ds) as [j|]; simpl; [|done].
    intros [= <-]. destruct (IH j eq_refl) as (l1 & d' & l2 & -> & <- & Hm).
    by exists (d :: l1), d', l2.
Qed.

Lemma find_index_None v ds :
  find_index v ds = None → Forall (λ d, matches_name v d = false) ds.
Proof.
  induction ds as [|d ds IH]; simpl; [constructor|].
  destruct (matches_name v d) eqn:E; [done|].
  destruct (find_index v ds); simpl; [done|].
  intros _. constructor; auto.
Qed.

Lemma index_ok_NoDup ds : NoDup (name_key <$> ds) → index_ok ds = true.
Proof. intros H. unfold index_ok. by apply bool_decide_eq_true_2. Qed.

Lemma create_index_app c :
  store_inv c →
  create_index c
  = Ok {| docs := docs c; unique_name := true; next_oid := next_oid c |}.
Proof. intros [_ Hnd]. unfold create_index. by rewrite index_ok_NoDup. Qed.

(** An upsert of a submitted profile succeeds on a collection the
    application wrote: afterwards exactly the document at one position
    carries the name, and it holds the submitted fields. *)
Lemma update_one_app c f :
  store_inv c →
  ∃ r c' l1 l2 oid,
    update_one (VStr (in_name f)) (student_data f) c = Ok (r, c') ∧
    docs c' = l1 ++ stored oid f :: l2 ∧
    Forall (λ d, name_key d ≠ Some (VStr (in_name f))) (l1 ++ l2) ∧
    store_inv c' ∧
    unique_name c' = unique_name c ∧
    ((∃ f', docs c = l1 ++ stored oid f' :: l2 ∧ in_name f' = in_name f ∧
            upserted_id r = None ∧ next_oid c' = next_oid c)
     ∨ (docs c = l1 ∧ l2 = [] ∧ oid = next_oid c ∧
        upserted_id r = Some (VObjectId oid) ∧ next_oid c' = S (next_oid c))).
Proof.
  intros [Hdocs Hnd]. unfold update_one.
  destruct (find_index (VStr (in_name f)) (docs c)) as [i|] eqn:Hfind.
  - destruct (find_index_Some _ _ _ Hfind) as (l1 & old & l2 & Hds & <- & Hm).
    rewrite Hds in Hdocs, Hnd |- *.
    rewrite list_lookup_middle by done.
    assert (app_doc old) as (oid & f' & ->).
    { rewrite Forall_app, Forall_cons in Hdocs. tauto. }
    rewrite matches_name_app_doc in Hm. apply bool_decide_eq_true_1 in Hm.
    rewrite set_replaces_profile.
    assert (<[length l1 := stored oid f]> (l1 ++ stored oid f' :: l2)
            = l1 ++ stored oid f :: l2) as ->.
    { rewrite insert_app_r_alt by lia. by rewrite Nat.sub_diag. }
    assert (name_key <$> l1 ++ stored oid f :: l2
            = name_key <$> l1 ++ stored oid f' :: l2) as Hkeys.
    { rewrite !fmap_app, !fmap_cons, !stored_name. by rewrite Hm. }
    rewrite index_ok_NoDup by (by rewrite Hkeys).
    rewrite andb_false_r.
    eexists _, _, l1, l2, oid. split; [reflexivity|]. simpl.
    split; [done|]. split; [|split; [|split; [done|left; eauto]]].
    + rewrite fmap_app, fmap_cons, stored_name in Hnd.
      apply NoDup_app in Hnd as (_ & Hl1 & Hl2).
      apply NoDup_cons in Hl2 as [Hl2 _].
      apply Forall_app. split; apply Forall_forall; intros d Hd Hk.
      * apply (Hl1 (name_key d)); [by apply list_elem_of_fmap_2|].
        rewrite Hk, Hm. left.
      * apply Hl2. rewrite Hm, <- Hk. by apply list_elem_of_fmap_2.
    + split; simpl; [|by rewrite Hkeys].
      rewrite Forall_app, Forall_cons in Hdocs |- *.
      destruct Hdocs as (? & _ & ?). repeat split; try done. by exists oid, f.
  - pose proof (find_index_None _ _ Hfind) as Hno.
    rewrite upsert_inserts_profile.
    assert (Forall (λ d, name_key d ≠ Some (VStr (in_name f))) (docs c)) as Hfresh.
    { apply Forall_forall. intros d Hd Hk.
      rewrite Forall_forall in Hdocs, Hno.
      destruct (Hdocs d Hd) as (oid & f' & ->).
      specialize (Hno _ Hd). rewrite matches_name_app_doc in Hno.
      apply bool_decide_eq_false_1 in Hno. rewrite stored_name in Hk. congruence. }
    assert (NoDup (name_key <$> docs c ++ [stored (next_oid c) f])) as Hnd'.
    { rewrite fmap_app. apply NoDup_app. split; [done|]. split.
      - intros k Hk Hin. apply list_elem_of_singleton in Hin. subst k.
        apply list_elem_of_fmap in Hk as (d & Hk & Hd).
        rewrite Forall_forall in Hfresh. apply (Hfresh d Hd). by rewrite <- Hk, stored_name.
      - simpl. apply NoDup_singleton. }
    rewrite index_ok_NoDup by done. rewrite andb_false_r.
    eexists _, _, (docs c), [], (next_oid c). split; [reflexivity|]. simpl.
    split; [done|]. rewrite app_nil_r.
    split; [done|]. split; [|split; [done|right]].
    + split; simpl; [|done]. apply Forall_app. split; [done|].
      constructor; [|constructor]. by exists (next_oid c), f.
    + unfold stored. by rewrite lookup_insert_eq.
Qed.

(** * The intake script, step by step *)

Lemma collect_student_details_spec f w :
  collect_student_details f w
  = (Ok (collected f), {| db := db w; screen := screen w ++ form_events f |}).
Proof.
  unfold collect_student_details, collected, form_events, text_input, truthy.
  script. destruct (in_submit f); simpl.
  - destruct (bool_decide (in_name f = "")); script;
      by rewrite <- !app_assoc.
  - by rewrite <- !app_assoc.
Qed.

Lemma analyze_student_profile_spec e f w :
  analyze_student_profile e (student_data f) w
  = (generate_content e (prompt_of f), w).
Proof.
  unfold analyze_student_profile, getitem. script.
  rewrite student_data_education, student_data_field, student_data_marks,
    student_data_skills, student_data_interests.
  reflexivity.
Qed.

(** [save_student_data] never lets an exception out: the [except] clauses
    cover every class, and the name read in the first clause is the one the
    [try] body already read. *)
Lemma save_student_data_returns e d w :
  ∃ w', save_student_data e d w = (Ok (), w').
Proof.
  unfold save_student_data, getitem. script.
  destruct (d !! "name") as [name|] eqn:Hname; simpl; [|eauto].
  destruct (mongo_fault e OpUpdateOne) as [x|]; script.
  { destruct (exn_cls x); simpl; rewrite ?Hname; simpl; eauto. }
  destruct (mongo_late_fault e OpUpdateOne) as [y|]; script.
  - destruct (update_one name d (db w)) as [[r c']|x]; simpl.
    + destruct (exn_cls y); simpl; eauto.
    + destruct (exn_cls x); simpl; eauto.
  - destruct (update_one name d (db w)) as [[r c']|x]; simpl.
    + destruct (option_truthy (upserted_id r)); simpl; eauto.
    + destruct (exn_cls x); simpl; eauto.
Qed.

(** A database call that fails before the server applied it leaves the
    collection as it was. *)
Lemma save_student_data_fault e d w x :
  mongo_fault e OpUpdateOne = Some x →
  db (save_student_data e d w).2 = db w.
Proof.
  intros Hx. unfold save_student_data, getitem. script.
  destruct (d !! "name") as [name|] eqn:Hname; simpl; [|done].
  rewrite Hx. script.
  destruct (exn_cls x); simpl; rewrite ?Hname; simpl; done.
Qed.

Lemma save_student_data_spec e f w r c' :
  mongo_fault e OpUpdateOne = None →
  mongo_late_fault e OpUpdateOne = None →
  update_one (VStr (in_name f)) (student_data f) (db w) = Ok (r, c') →
  save_student_data e (student_data f) w
  = (Ok (), {| db := c'; screen := screen w ++ [saved_message r f] |}).
Proof.
  intros Hnf Hlate Hup. unfold save_student_data, getitem, saved_message. script.
  rewrite student_data_name, Hnf. script. rewrite Hlate, Hup. simpl.
  destruct (option_truthy (upserted_id r)); simpl; done.
Qed.

(** An upsert that raises after the server applied it is reported as a
    failure, and the profile is in the collection all the same. *)
Lemma save_student_data_late e f w r c' x :
  mongo_fault e OpUpdateOne = None →
  mongo_late_fault e OpUpdateOne = Some x →
  update_one (VStr (in_name f)) (student_data f) (db w) = Ok (r, c') →
  save_student_data e (student_data f) w
  = (Ok (), {| db := c'; screen := screen w ++ [failure_message x f] |}).
Proof.
  intros Hnf Hlate Hup. unfold save_student_data, getitem, failure_message.
  script. rewrite student_data_name, Hnf. script. rewrite Hlate, Hup. script.
  destruct (exn_cls x); simpl; rewrite ?student_data_name; done.
Qed.

(** Once the upsert reached the server the collection holds its result,
    whether or not the call then raised. *)
Lemma save_student_data_written e f w r c' :
  mongo_fault e OpUpdateOne = None →
  update_one (VStr (in_name f)) (student_data f) (db w) = Ok (r, c') →
  db (save_student_data e (student_data f) w).2 = c'.
Proof.
  intros Hnf Hup.
  destruct (mongo_late_fault e OpUpdateOne) as [x|] eqn:Hlate.
  - by rewrite (save_student_data_late _ _ _ r c' x).
  - by rewrite (save_student_data_spec _ _ _ r c').
Qed.

(** [run] when the form yields no profile: nothing but the form is shown. *)
Lemma run_no_profile e f w :
  collected f = None →
  run e f w
  = (Ok (), {| db := db w; screen := screen w ++ run_title :: form_events f |}).
Proof.
  intros Hc. unfold run. script. rewrite collect_student_details_spec. simpl.
  rewrite Hc. script. by rewrite <- app_assoc.
Qed.

(** [run] when the generation service fails: the exception leaves [run]
    before the profile is saved. *)
Lemma run_generation_fails e f w x :
  collected f = Some (student_data f) →
  generate_content e (prompt_of f) = Raise x →
  run e f w
  = (Raise x, {| db := db w; screen := screen w ++ run_title :: form_events f |}).
Proof.
  intros Hc Hg. unfold run. script. rewrite collect_student_details_spec. simpl.
  rewrite Hc, student_data_truthy. rewrite analyze_student_profile_spec, Hg.
  simpl. by rewrite <- app_assoc.
Qed.

(** [run] when the service answers: the analysis and the courses are shown
    and the profile goes to [save_student_data]. *)
Lemma run_generation_ok e f w text :
  collected f = Some (student_data f) →
  generate_content e (prompt_of f) = Ok text →
  run e f w
  = save_student_data e (student_data f)
      {| db := db w;
         screen := screen w ++ run_title :: form_events f
                   ++ StWrite ["Profile Analysis:"; text] :: course_events |}.
Proof.
  intros Hc Hg. unfold run. script. rewrite collect_student_details_spec. simpl.
  rewrite Hc, student_data_truthy. rewrite analyze_student_profile_spec, Hg.
  simpl. do 2 f_equal. by rewrite <- !app_assoc.
Qed.

Lemma collected_cases f :
  collected f = None ∨ collected f = Some (student_data f).
Proof.
  unfold collected. destruct (in_submit f); [|by left].
  destruct (bool_decide (in_name f = "")); [by left | by right].
Qed.

(** * Requests on the intake page *)

Lemma store_inv_indexed c : store_inv c → store_inv (indexed c).
Proof. by intros [??]. Qed.

Lemma init_app_docs e w : docs (db (init_app e w).2) = docs (db w).
Proof.
  unfold init_app. script.
  destruct (mongo_fault e OpCreateIndex); script; [done|].
  unfold create_index.
  destruct (mongo_late_fault e OpCreateIndex); script;
    by destruct (index_ok (docs (db w))).
Qed.

Lemma init_app_spec e c scr :
  store_inv c →
  mongo_fault e OpCreateIndex = None →
  mongo_late_fault e OpCreateIndex = None →
  init_app e {| db := c; screen := scr |}
  = (Ok (), {| db := indexed c; screen := scr |}).
Proof.
  intros Hinv Hnf Hlate. unfold init_app. script. rewrite Hnf. script.
  rewrite Hlate. by rewrite create_index_app.
Qed.

(** An index call that raises after the server applied it stops the request
    in [__init__], with the index declared. *)
Lemma init_app_late e c scr x :
  store_inv c →
  mongo_fault e OpCreateIndex = None →
  mongo_late_fault e OpCreateIndex = Some x →
  init_app e {| db := c; screen := scr |}
  = (Raise x, {| db := indexed c; screen := scr |}).
Proof.
  intros Hinv Hnf Hlate. unfold init_app. script. rewrite Hnf. script.
  rewrite Hlate. script. by rewrite create_index_app.
Qed.

Lemma serve_index_fault c e f x :
  mongo_fault e OpCreateIndex = Some x → serve c (e, f) = c.
Proof.
  intros Hci. unfold serve, main, init_app. script. rewrite Hci. by script.
Qed.

Lemma serve_index_late_fault c e f x :
  store_inv c →
  mongo_fault e OpCreateIndex = None →
  mongo_late_fault e OpCreateIndex = Some x →
  serve c (e, f) = indexed c.
Proof.
  intros Hinv Hci Hlate. unfold serve, main. simpl. unfold bind.
  by rewrite (init_app_late _ _ _ x).
Qed.

Lemma serve_unfold c e f :
  store_inv c →
  mongo_fault e OpCreateIndex = None →
  mongo_late_fault e OpCreateIndex = None →
  serve c (e, f) = db (run e f {| db := indexed c; screen := [] |}).2.
Proof.
  intros Hinv Hci Hlate. unfold serve, main. simpl. unfold bind.
  by rewrite init_app_spec.
Qed.

(** A request either leaves the documents alone or is one successful
    upsert of the submitted profile. *)
Lemma serve_cases c e f :
  store_inv c →
  (docs (serve c (e, f)) = docs c ∧ store_inv (serve c (e, f)))
  ∨ (∃ r, update_one (VStr (in_name f)) (student_data f) (indexed c)
          = Ok (r, serve c (e, f))).
Proof.
  intros Hinv.
  assert (store_inv (indexed c)) as Hinv' by by apply store_inv_indexed.
  destruct (mongo_fault e OpCreateIndex) as [x|] eqn:Hci.
  { left. by rewrite (serve_index_fault _ _ _ x). }
  destruct (mongo_late_fault e OpCreateIndex) as [x|] eqn:Hcl.
  { left. by rewrite (serve_index_late_fault _ _ _ x). }
  rewrite serve_unfold by done.
  destruct (collected_cases f) as [Hc|Hc].
  { left. rewrite run_no_profile by done. simpl. by split. }
  destruct (generate_content e (prompt_of f)) as [text|x] eqn:Hg.
  2:{ left. rewrite (run_generation_fails _ _ _ x) by done. simpl. by split. }
  rewrite (run_generation_ok _ _ _ text) by done.
  destruct (mongo_fault e OpUpdateOne) as [x|] eqn:Hup.
  { left. rewrite (save_student_data_fault _ _ _ x) by done. simpl. by split. }
  right. destruct (update_one_app (indexed c) f Hinv')
    as (r & c' & l1 & l2 & oid & Hupd & _).
  exists r. rewrite Hupd. f_equal. f_equal.
  by rewrite (save_student_data_written _ _ _ r c').
Qed.

Lemma serve_healthy c e f :
  store_inv c → healthy e f → collected f = Some (student_data f) →
  ∃ r, update_one (VStr (in_name f)) (student_data f) (indexed c)
       = Ok (r, serve c (e, f)).
Proof.
  intros Hinv [[text Hg] Hnf] Hc.
  rewrite serve_unfold by (done || apply Hnf).
  rewrite (run_generation_ok _ _ _ text) by done.
  destruct (update_one_app (indexed c) f (store_inv_indexed _ Hinv))
    as (r & c' & l1 & l2 & oid & Hupd & _).
  exists r. rewrite Hupd. f_equal. f_equal.
  by rewrite (save_student_data_written _ _ _ r c') by (done || apply Hnf).
Qed.

Lemma serve_inv c r : store_inv c → store_inv (serve c r).
Proof.
  destruct r as [e f]. intros Hinv.
  destruct (serve_cases c e f Hinv) as [[_ ?]|[r Hupd]]; [done|].
  destruct (update_one_app (indexed c) f (store_inv_indexed _ Hinv))
    as (r' & c' & l1 & l2 & oid & Hupd' & _ & _ & Hinv' & _).
  rewrite Hupd in Hupd'. by injection Hupd' as _ ->.
Qed.

Lemma serve_all_snoc rs r : serve_all (rs ++ [r]) = serve (serve_all rs) r.
Proof. unfold serve_all. by rewrite foldl_app. Qed.

Lemma serve_all_inv rs : store_inv (serve_all rs).
Proof.
  induction rs as [|r rs IH] using rev_ind.
  - split; simpl; constructor.
  - rewrite serve_all_snoc. by apply serve_inv.
Qed.

Lemma filter_none {A} (P : A → Prop) `{!∀ x, Decision (P x)} (l : list A) :
  Forall (λ x, ¬ P x) l → filter P l = [].
Proof.
  induction 1 as [|x l Hx _ IH]; [done|].
  by rewrite filter_cons_False.
Qed.

(** Exactly one element of [l1 ++ x :: l2] satisfies [P] when [x] does and
    nothing around it does. *)
Lemma filter_only {A} (P : A → Prop) `{!∀ x, Decision (P x)} (l1 l2 : list A) x :
  P x → Forall (λ y, ¬ P y) (l1 ++ l2) → filter P (l1 ++ x :: l2) = [x].
Proof.
  intros Hx [H1 H2]%Forall_app.
  rewrite filter_app, filter_cons_True by done.
  by rewrite !filter_none.
Qed.

Lemma upsert_result_unique c f r c' :
  store_inv c →
  update_one (VStr (in_name f)) (student_data f) c = Ok (r, c') →
  ∃ oid,
    filter (λ d, name_key d = Some (VStr (in_name f))) (docs c') = [stored oid f].
Proof.
  intros Hinv Hupd.
  destruct (update_one_app c f Hinv)
    as (r' & c'' & l1 & l2 & oid & Hupd' & Hdocs & Hfresh & _).
  rewrite Hupd in Hupd'. injection Hupd' as _ <-.
  exists oid. rewrite Hdocs. apply filter_only; [apply stored_name|done].
Qed.

Lemma collected_submitted f :
  in_submit f = true → in_name f ≠ "" → collected f = Some (student_data f).
Proof.
  intros Hs Hn. unfold collected. rewrite Hs.
  by rewrite bool_decide_eq_false_2.
Qed.

Lemma first_upsert f r c' :
  update_one (VStr (in_name f)) (student_data f) (indexed empty_collection)
  = Ok (r, c') →
  c' = {| docs := [stored 0 f]; unique_name := true; next_oid := 1 |}.
Proof.
  unfold update_one. simpl. rewrite upsert_inserts_profile.
  by intros [= _ <-].
Qed.

Lemma second_upsert f1 f2 r c' :
  in_name f1 = in_name f2 →
  update_one (VStr (in_name f2)) (student_data f2)
    {| docs := [stored 0 f1]; unique_name := true; next_oid := 1 |}
  = Ok (r, c') →
  c' = {| docs := [stored 0 f2]; unique_name := true; next_oid := 1 |}.
Proof.
  intros Hn. unfold update_one. simpl.
  rewrite matches_name_app_doc, bool_decide_eq_true_2 by done. simpl.
  rewrite set_replaces_profile.
  by intros [= _ <-].
Qed.

(** C1. At most one document per name, and the last write wins: after any
    sequence of requests no two stored documents share a name; a successful
    submission leaves exactly one document with its name, holding exactly
    the submitted fields (and the [_id] of the document it replaced or
    created); two submissions with the same name on a new collection leave
    a single document with the fields of the second. *)
Theorem name_is_unique_and_last_write_wins (rs : list (env * form_state)) :
  NoDup (name_key <$> docs (serve_all rs))
  ∧ (∀ e f,
       healthy e f → in_submit f = true → in_name f ≠ "" →
       ∃ oid,
         filter (λ d, name_key d = Some (VStr (in_name f)))
                (docs (serve_all (rs ++ [(e, f)])))
         = [stored oid f]
         ∧ delete "_id" (stored oid f) = student_data f)
  ∧ (∀ e1 f1 e2 f2,
       healthy e1 f1 → healthy e2 f2 →
       in_submit f1 = true → in_submit f2 = true →
       in_name f1 ≠ "" → in_name f1 = in_name f2 →
       ∃ oid,
         docs (serve_all [(e1, f1); (e2, f2)]) = [stored oid f2]
         ∧ delete "_id" (stored oid f2) = student_data f2).
Proof.
  split; [apply serve_all_inv|]. split.
  - intros e f Hh Hs Hn. rewrite serve_all_snoc.
    destruct (serve_healthy (serve_all rs) e f) as [r Hupd];
      [apply serve_all_inv|done|by apply collected_submitted|].
    destruct (upsert_result_unique _ _ _ _
                (store_inv_indexed _ (serve_all_inv rs)) Hupd) as [oid Hf].
    exists oid. split; [done|apply drop_id_stored].
  - intros e1 f1 e2 f2 Hh1 Hh2 Hs1 Hs2 Hn Heq.
    change (serve_all [(e1, f1); (e2, f2)])
      with (serve (serve empty_collection (e1, f1)) (e2, f2)).
    assert (store_inv empty_collection) as H0 by (split; simpl; constructor).
    destruct (serve_healthy empty_collection e1 f1 H0 Hh1) as [r1 Hup1];
      [by apply collected_submitted|].
    apply first_upsert in Hup1.
    destruct (serve_healthy (serve empty_collection (e1, f1)) e2 f2) as [r2 Hup2];
      [by apply serve_inv|done|apply collected_submitted; congruence|].
    rewrite Hup1 in Hup2. apply (second_upsert f1 f2) in Hup2; [|done].
    exists 0. rewrite Hup1, Hup2. split; [done|apply drop_id_stored].
Qed.

(** * Reading the collection back *)

Lemma get_students_dataframe_spec e w :
  mongo_fault e OpFind = None →
  get_students_dataframe e w = (Ok (drop "_id" (docs (db w))), w).
Proof.
  intros Hnf. unfold get_students_dataframe. script. rewrite Hnf. script.
  by destruct (docs (db w)).
Qed.

Lemma save_student_data_app e f w :
  store_inv (db w) → mongo_fault e OpUpdateOne = None →
  ∃ r c' l1 l2 oid,
    db (save_student_data e (student_data f) w).2 = c'
    ∧ update_one (VStr (in_name f)) (student_data f) (db w) = Ok (r, c')
    ∧ docs c' = l1 ++ stored oid f :: l2
    ∧ Forall (λ d, name_key d ≠ Some (VStr (in_name f))) (l1 ++ l2)
    ∧ store_inv c'.
Proof.
  intros Hinv Hnf.
  destruct (update_one_app (db w) f Hinv)
    as (r & c' & l1 & l2 & oid & Hupd & Hdocs & Hfresh & Hinv' & _).
  exists r, c', l1, l2, oid.
  by rewrite (save_student_data_written _ _ _ r c').
Qed.

(** Upserting a profile that is already stored changes nothing. *)
Lemma update_one_again c f l1 l2 oid r c' :
  store_inv c →
  docs c = l1 ++ stored oid f :: l2 →
  update_one (VStr (in_name f)) (student_data f) c = Ok (r, c') →
  c' = c.
Proof.
  intros Hinv Hdocs Hupd.
  destruct (update_one_app c f Hinv)
    as (r' & c'' & k1 & k2 & oid' & Hupd' & Hdocs' & Hfresh & _ & Hu & Hcase).
  rewrite Hupd in Hupd'. injection Hupd' as _ <-.
  assert (stored oid f ∈ docs c) as Hin.
  { rewrite Hdocs. apply elem_of_app. right. left. }
  destruct Hcase as [(f' & Hc & Hn & _ & Hoid)|(Hc & _)].
  - assert (stored oid' f' = stored oid f) as Heq.
    { rewrite Hc in Hin.
      apply elem_of_app in Hin as [Hin|Hin];
        [|apply elem_of_cons in Hin as [Hin|Hin]; [done|]].
      all: exfalso; rewrite Forall_app, !Forall_forall in Hfresh;
        destruct Hfresh as [H1 H2];
        first [apply (H1 _ Hin)|apply (H2 _ Hin)]; apply stored_name. }
    assert (stored oid' f = stored oid' f') as Heq'.
    { unfold stored. f_equal.
      rewrite <- (drop_id_stored oid f), <- (drop_id_stored oid' f').
      by rewrite Heq. }
    destruct c as [ds u n], c' as [ds' u' n']. simpl in *.
    f_equal; [|done|done]. rewrite Hdocs', Hc. by rewrite Heq'.
  - exfalso. rewrite Hc in Hin. rewrite Forall_app, !Forall_forall in Hfresh.
    destruct Hfresh as [H1 _]. apply (H1 _ Hin), stored_name.
Qed.

(** C2. Saving a profile and loading the collection back gives a frame
    with exactly one row equal to the profile, whatever requests came
    before; saving the same profile once more changes nothing. *)
Theorem upsert_then_load_roundtrip
    (rs : list (env * form_state)) (e e' : env) (f : form_state)
    (scr : list ui_event) :
  mongo_fault e OpUpdateOne = None →
  mongo_fault e' OpFind = None →
  let w1 := (save_student_data e (student_data f)
               {| db := serve_all rs; screen := scr |}).2 in
  ∃ df,
    (get_students_dataframe e' w1).1 = Ok df
    ∧ filter (λ row, row = student_data f) df = [student_data f]
    ∧ db (save_student_data e (student_data f) w1).2 = db w1.
Proof.
  intros Hup Hfind w1.
  destruct (save_student_data_app e f {| db := serve_all rs; screen := scr |}
              (serve_all_inv rs) Hup)
    as (r & c' & l1 & l2 & oid & Hw1 & Hupd & Hdocs & Hfresh & Hinv').
  cbn [screen db] in Hupd. fold w1 in Hw1.
  exists (drop "_id" (docs c')). split; [|split].
  - rewrite get_students_dataframe_spec by done. simpl. by rewrite Hw1.
  - rewrite Hdocs. unfold drop. rewrite fmap_app, fmap_cons, drop_id_stored.
    apply filter_only; [done|].
    rewrite <- fmap_app. apply Forall_fmap.
    destruct Hinv' as [Hall _]. rewrite Hdocs in Hall.
    assert (Forall app_doc (l1 ++ l2)) as Hall'.
    { rewrite Forall_app, Forall_cons in Hall. rewrite Forall_app. tauto. }
    rewrite Forall_forall in Hfresh, Hall' |- *.
    intros d Hd Heq. simpl in Heq.
    destruct (Hall' d Hd) as (oid' & f' & ->).
    apply (Hfresh _ Hd). rewrite stored_name.
    rewrite drop_id_stored in Heq.
    pose proof (student_data_name f') as Hn. rewrite Heq in Hn.
    rewrite student_data_name in Hn. congruence.
  - rewrite <- Hw1 in Hinv'.
    destruct (save_student_data_app e f w1 Hinv' Hup)
      as (r2 & c2 & k1 & k2 & oid2 & Hw2 & Hupd2 & _).
    rewrite Hw2. rewrite Hw1 in Hinv', Hupd2 |- *.
    by apply (update_one_again c' f l1 l2 oid r2 c2).
Qed.

(** * Validation of the form *)

(** C3. A form whose name is empty yields no profile, and the request
    writes nothing to the collection; when it was submitted, the error
    "Full Name is required" is shown. *)
Theorem empty_name_is_rejected (e : env) (f : form_state) (w : world) :
  in_name f = "" →
  (collect_student_details f w).1 = Ok None
  ∧ (in_submit f = true →
     StError "Full Name is required" ∈ screen (collect_student_details f w).2)
  ∧ run e f w
    = (Ok (), {| db := db w; screen := screen w ++ run_title :: form_events f |})
  ∧ docs (serve (db w) (e, f)) = docs (db w).
Proof.
  intros Hn.
  assert (collected f = None) as Hc.
  { unfold collected. rewrite Hn. by destruct (in_submit f). }
  rewrite collect_student_details_spec. simpl. rewrite Hc.
  split; [done|]. split; [|split].
  - intros Hs. unfold form_events. rewrite Hs, Hn. simpl.
    apply elem_of_app. right. set_solver.
  - by apply run_no_profile.
  - unfold serve, main. simpl. unfold bind.
    destruct (init_app e {| db := db w; screen := [] |}) as [[[]|x] w1] eqn:Hi.
    + rewrite run_no_profile by done. simpl.
      change (db w1) with (db (Ok (), w1).2). rewrite <- Hi.
      apply (init_app_docs e {| db := db w; screen := [] |}).
    + simpl. change (db w1) with (db (@Raise unit x, w1).2). rewrite <- Hi.
      apply (init_app_docs e {| db := db w; screen := [] |}).
Qed.

(** * The course list *)

(** C8. [recommend_courses] returns the same two hard-coded records for
    every analysis text. *)
Theorem recommend_courses_is_constant (analysis analysis' : string) :
  recommend_courses analysis = recommend_courses analysis'
  ∧ recommend_courses analysis
    = [ Course "Coursera" "Machine Learning Specialization"
          "https://www.coursera.org/specializations/machine-learning"
          "Intermediate";
        Course "Udemy" "Complete Python Bootcamp"
          "https://www.udemy.com/course/complete-python-bootcamp/"
          "Beginner" ].
Proof. split; reflexivity. Qed.

(** * The gender field *)

Lemma selectbox_in_options options chosen :
  options ≠ [] → selectbox options chosen ∈ options.
Proof.
  intros Hne. unfold selectbox.
  destruct (options !! chosen) as [s|] eqn:E; simpl.
  - by eapply list_elem_of_lookup_2.
  - destruct options as [|s options]; [done|]. simpl. left.
Qed.

(** C9. Every profile [collect_student_details] returns has a [gender]
    that is one of the four options of the select box: "Male", "Female",
    "Other", or "Select", the placeholder that stands for no choice. *)
Theorem gender_is_in_enumeration
    (f : form_state) (w w' : world) (d : document) :
  collect_student_details f w = (Ok (Some d), w') →
  ∃ g, d !! "gender" = Some (VStr g)
       ∧ g ∈ ["Select"; "Male"; "Female"; "Other"].
Proof.
  rewrite collect_student_details_spec. intros [= Hc _].
  destruct (collected_cases f) as [Hn|Hs]; rewrite Hc in *; [done|].
  injection Hs as ->.
  exists (selectbox gender_options (in_gender f)).
  split; [apply student_data_gender|].
  by apply (selectbox_in_options gender_options).
Qed.

(** * Columns and counts of a frame *)

Lemma column_present k (df : frame) (row : document) :
  row ∈ df → is_Some (row !! k) →
  column k df = Ok ((λ r : document, r !! k) <$> df).
Proof.
  intros Hin Hk. unfold column. rewrite bool_decide_eq_true_2; [done|].
  unfold columns. apply elem_of_union_list. exists (dom row). split.
  - by apply list_elem_of_fmap_2.
  - by apply elem_of_dom.
Qed.

Lemma outcome_map_ok {A B} (f : A → outcome B) (g : A → B) (l : list A) :
  Forall (λ x, f x = Ok (g x)) l → outcome_map f l = Ok (g <$> l).
Proof.
  induction 1 as [|x l Hx _ IH]; [done|].
  simpl. by rewrite Hx, IH.
Qed.

Lemma count_label_lookup m x s :
  count_label m x !! s
  = if decide (x = s) then Some (S (default 0 (m !! s))) else m !! s.
Proof.
  unfold count_label. destruct (decide (x = s)) as [->|Hne].
  - by rewrite lookup_insert_eq.
  - by rewrite lookup_insert_ne.
Qed.

Lemma occurrences_cons s x l :
  occurrences s (x :: l)
  = if decide (x = s) then S (occurrences s l) else occurrences s l.
Proof.
  unfold occurrences. destruct (decide (x = s)) as [->|Hne].
  - by rewrite filter_cons_True.
  - by rewrite filter_cons_False.
Qed.

Lemma foldl_count_label_lookup l m s :
  foldl count_label m l !! s
  = if decide (occurrences s l = 0) then m !! s
    else Some (default 0 (m !! s) + occurrences s l).
Proof.
  revert m. induction l as [|x l IH]; intros m; [done|].
  simpl. rewrite IH, count_label_lookup, occurrences_cons.
  destruct (decide (x = s)) as [->|Hne]; [|done].
  rewrite (decide_False (P := S (occurrences s l) = 0)) by lia. simpl.
  destruct (decide (occurrences s l = 0)) as [->|_]; f_equal; lia.
Qed.

(** [value_counts] counts: the entry of a label is the number of times it
    occurs, and labels that do not occur have no entry. *)
Lemma tally_lookup l s :
  tally l !! s
  = if decide (occurrences s l = 0) then None else Some (occurrences s l).
Proof.
  unfold tally. rewrite foldl_count_label_lookup, lookup_empty.
  by destruct (decide (occurrences s l = 0)).
Qed.



(** * Grouping *)

Lemma marks_of_unlabelled s rows :
  ¬ Exists (λ r, r.1 = Some s) rows → marks_of s rows = [].
Proof.
  induction rows as [|r rows IH]; [done|].
  intros Hno. unfold marks_of in *. simpl.
  rewrite decide_False by (intros E; apply Hno; by left).
  simpl. apply IH. intros E. apply Hno. by right.
Qed.

Lemma foldl_add_to_group_lookup rows m s :
  foldl add_to_group m rows !! s
  = if decide (Exists (λ r, r.1 = Some s) rows)
    then Some (default [] (m !! s) ++ marks_of s rows)
    else m !! s.
Proof.
  revert m. induction rows as [|r rows IH]; intros m.
  { done. }
  simpl. rewrite IH. unfold marks_of at 2. simpl. fold (marks_of s rows).
  destruct (decide (r.1 = Some s)) as [Hr|Hr].
  - rewrite (decide_True (P := Exists _ (r :: rows))) by by left.
    unfold add_to_group. rewrite Hr, lookup_insert_eq. simpl.
    destruct (decide (Exists (λ r, r.1 = Some s) rows)) as [_|Hno].
    + by rewrite <- app_assoc.
    + by rewrite (marks_of_unlabelled s rows Hno), app_nil_r.
  - assert (add_to_group m r !! s = m !! s) as ->.
    { unfold add_to_group. destruct (r.1) as [s'|]; [|done].
      rewrite lookup_insert_ne; [done|congruence]. }
    simpl. apply decide_ext. rewrite Exists_cons. tauto.
Qed.


Lemma zip_fmap_same {A B C} (g : A → B) (h : A → C) (l : list A) :
  zip (g <$> l) (h <$> l) = (λ x, (g x, h x)) <$> l.
Proof. induction l as [|x l IH]; [done|]. simpl. f_equal. exact IH. Qed.

(** * Frames made of submitted profiles *)

Section profile_frames.
Variable fs : list form_state.
Hypothesis nonempty : fs ≠ [].

Lemma profile_column k (g : form_state → value) :
  (∀ f, student_data f !! k = Some (g f)) →
  column k (student_data <$> fs) = Ok (Some ∘ g <$> fs).
Proof.
  intros Hk. destruct fs as [|f0 fs0] eqn:E; [done|].
  rewrite (column_present k (student_data <$> f0 :: fs0) (student_data f0)).
  - f_equal. rewrite <- list_fmap_compose.
    apply list_fmap_ext. intros _ f _. simpl. apply Hk.
  - simpl. left.
  - by rewrite Hk.
Qed.

Lemma education_counts_profiles :
  education_counts (student_data <$> fs) = Ok (tally (education_of <$> fs)).
Proof.
  unfold education_counts.
  rewrite (profile_column _ (VStr ∘ education_of))
    by apply student_data_education.
  simpl. unfold value_counts.
  rewrite (outcome_map_ok _ (λ c, match c with Some (VStr s) => Some s | _ => None end)).
  - simpl. f_equal. f_equal. clear. induction fs as [|f l IH]; [done|].
    simpl. f_equal. exact IH.
  - apply Forall_fmap, Forall_true. by intros f.
Qed.

Lemma field_counts_profiles :
  field_counts (student_data <$> fs) = Ok (tally (field_of <$> fs)).
Proof.
  unfold field_counts.
  rewrite (profile_column _ (VStr ∘ field_of)) by apply student_data_field.
  simpl. unfold value_counts.
  rewrite (outcome_map_ok _ (λ c, match c with Some (VStr s) => Some s | _ => None end)).
  - simpl. f_equal. f_equal. clear. induction fs as [|f l IH]; [done|].
    simpl. f_equal. exact IH.
  - apply Forall_fmap, Forall_true. by intros f.
Qed.

Lemma skill_counts_profiles :
  skill_counts (student_data <$> fs) = Ok (tally (fs ≫= skills_of)).
Proof.
  unfold skill_counts.
  rewrite (profile_column _ (VList ∘ skills_of)) by apply student_data_skills.
  simpl. unfold flatten.
  rewrite (outcome_map_ok _ (λ c, match c with Some (VList l) => l | _ => [] end)).
  - simpl. f_equal. f_equal. clear. induction fs as [|f l IH]; [done|].
    simpl. f_equal. exact IH.
  - apply Forall_fmap, Forall_true. by intros f.
Qed.

Lemma interest_counts_profiles :
  interest_counts (student_data <$> fs) = Ok (tally (fs ≫= interests_of)).
Proof.
  unfold interest_counts.
  rewrite (profile_column _ (VList ∘ interests_of))
    by apply student_data_interests.
  simpl. unfold flatten.
  rewrite (outcome_map_ok _ (λ c, match c with Some (VList l) => l | _ => [] end)).
  - simpl. f_equal. f_equal. clear. induction fs as [|f l IH]; [done|].
    simpl. f_equal. exact IH.
  - apply Forall_fmap, Forall_true. by intros f.
Qed.

Lemma grouped_marks_profiles :
  grouped_marks (student_data <$> fs)
  = Ok (foldl add_to_group ∅ ((λ f, (Some (education_of f), mark_of f)) <$> fs)).
Proof.
  unfold grouped_marks.
  rewrite (profile_column _ (VStr ∘ education_of))
    by apply student_data_education.
  simpl.
  rewrite (profile_column _ (λ f, VFloat (number_input_float 0%float 100%float
                                            (in_previous_marks f))))
    by apply student_data_marks.
  simpl. unfold groupby_cells.
  rewrite (outcome_map_ok _ (λ c, match c with Some (VStr s) => Some s | _ => None end))
    by (apply Forall_fmap, Forall_true; by intros f).
  simpl.
  rewrite (outcome_map_ok _
             (λ c, match c with
                   | Some (VFloat x) => if PrimFloat.is_nan x then None else Some x
                   | _ => None
                   end))
    by (apply Forall_fmap, Forall_true; by intros f).
  simpl. f_equal. unfold groupby.
  rewrite <- !list_fmap_compose. by rewrite zip_fmap_same.
Qed.
End profile_frames.

(** * The dashboard *)

(** C4. On an empty collection the dashboard raises nothing: it shows the
    title and the warning "No student data available." and stops before
    any grouping, so no chart and no table reaches the page and every
    label has count zero on it.  Grouping the empty frame would have
    raised [KeyError]. *)
Theorem empty_collection_shows_no_data (e : env) (w : world) :
  mongo_fault e OpFind = None →
  docs (db w) = [] →
  ∃ shown,
    render_dashboard e w
    = (Ok (), {| db := db w; screen := screen w ++ shown |})
    ∧ shown = [dashboard_title; StWarning "No student data available."]
    ∧ filter (λ ev, is_chart ev = true) shown = []
    ∧ (∀ label, sum_list (chart_count label <$> shown) = 0)
    ∧ education_counts [] = Raise (Exn KeyError "'education_level'").
Proof.
  intros Hnf Hdocs.
  exists [dashboard_title; StWarning "No student data available."].
  split; [|repeat split; reflexivity].
  unfold render_dashboard. script.
  rewrite get_students_dataframe_spec by done. simpl. rewrite Hdocs. simpl.
  script. by rewrite <- app_assoc.
Qed.

Lemma flatten_lists k (df : frame) (tagss : list (list string)) :
  Forall2 (λ (row : document) tags, row !! k = Some (VList tags)) df tagss →
  outcome_map iterate_cell ((λ r : document, r !! k) <$> df) = Ok tagss.
Proof.
  induction 1 as [|row tags df tagss Hrow _ IH]; [done|].
  rewrite fmap_cons. cbn [outcome_map]. rewrite Hrow, IH. done.
Qed.

Lemma flatten_then_tally k (df : frame) (tagss : list (list string)) :
  df ≠ [] →
  Forall2 (λ (row : document) tags, row !! k = Some (VList tags)) df tagss →
  outcome_bind (column k df) (λ cells,
    outcome_bind (flatten cells) (λ all, Ok (tally all)))
  = Ok (tally (concat tagss)).
Proof.
  intros Hne Hall. destruct Hall as [|row tags df tagss Hrow Hall]; [done|].
  rewrite (column_present k (row :: df) row); [|left|by rewrite Hrow].
  cbn [outcome_bind]. unfold flatten.
  rewrite (flatten_lists k (row :: df) (tags :: tagss)); [done|].
  by constructor.
Qed.

Lemma tally_counts l tag : default 0 (tally l !! tag) = occurrences tag l.
Proof.
  rewrite tally_lookup. by destruct (decide (occurrences tag l = 0)) as [->|].
Qed.

(** C5. The skill chart counts tags, not rows: when the rows have the tag
    lists [tagss], the count of a tag is the number of times it occurs in
    their concatenation, and likewise for the interest chart.  For the
    lists [["Programming","Cloud Computing"], ["Programming"]] this gives
    Programming = 2 and Cloud Computing = 1. *)
Theorem tag_counts_flatten_then_count
    (df : frame) (skills interests : list (list string)) :
  df ≠ [] →
  Forall2 (λ (row : document) tags,
             row !! "technical_skills" = Some (VList tags)) df skills →
  Forall2 (λ (row : document) tags,
             row !! "learning_interests" = Some (VList tags)) df interests →
  (∃ m, skill_counts df = Ok m
        ∧ ∀ tag, default 0 (m !! tag) = occurrences tag (concat skills))
  ∧ (∃ m, interest_counts df = Ok m
          ∧ ∀ tag, default 0 (m !! tag) = occurrences tag (concat interests))
  ∧ (skills = [["Programming"; "Cloud Computing"]; ["Programming"]] →
     skill_counts df = Ok {[ "Programming" := 2; "Cloud Computing" := 1 ]}).
Proof.
  intros Hne Hs Hi. split; [|split].
  - exists (tally (concat skills)). split; [|intros; apply tally_counts].
    by apply flatten_then_tally.
  - exists (tally (concat interests)). split; [|intros; apply tally_counts].
    by apply flatten_then_tally.
  - intros ->. unfold skill_counts.
    by rewrite (flatten_then_tally _ _ _ Hne Hs).
Qed.




(** The difference is not an artefact of the compensated sum: the plain
    left-to-right sum gives the same two values. *)
Lemma plain_mean_depends_on_order :
  plain_mean [3.1%float; 99.4%float; 83.2%float] = 61.9%float
  ∧ plain_mean [99.4%float; 83.2%float; 3.1%float] = 61.900000000000006%float.
Proof. split; vm_compute; reflexivity. Qed.

(** * Failures of the remote services *)

(** A failing database call inside [save_student_data] is reported on the
    page and the script goes on. *)
Lemma store_failure_is_reported e d w x :
  is_Some (d !! "name") →
  mongo_fault e OpUpdateOne = Some x →
  exn_cls x ≠ DuplicateKeyError →
  save_student_data e d w
  = (Ok (), {| db := db w;
               screen := screen w ++
                 [StError ("An error occurred while saving the profile: "
                           +:+ exn_msg x)] |}).
Proof.
  intros [name Hname] Hx Hcls. unfold save_student_data, getitem. script.
  rewrite Hname. simpl. rewrite Hx. script.
  destruct (exn_cls x); done.
Qed.

(** C7 at a failing submission.  The generation service fails while Ada's
    valid form is processed: the exception leaves [run] and [main], no
    error box was written, and the profile was not saved. *)
Theorem generation_failure_escapes_main :
  main generation_down ada {| db := empty_collection; screen := [] |}
  = (Raise (Exn ServiceError "503 Service Unavailable"),
     {| db := {| docs := []; unique_name := true; next_oid := 0 |};
        screen := [StTitle "Personalized Learning Recommendation Platform";
                   StHeader "Student Profile & Learning Recommendation";
                   StSubheader "Academic Information";
                   StSubheader "Performance & Skills"] |})
  ∧ main database_down ada {| db := empty_collection; screen := [] |}
    = (Ok (),
       {| db := {| docs := []; unique_name := true; next_oid := 0 |};
          screen := (run_title :: form_events ada)
                    ++ (StWrite ["Profile Analysis:"; "Recommended: keep learning."]
                        :: course_events)
                    ++ [StError "An error occurred while saving the profile: connection timed out"] |}).
Proof. split; vm_compute; reflexivity. Qed.

(** * The theorems at concrete submissions *)

(** C1 at a concrete history: Ada and Bob are stored, then Bob submits
    again with other details. *)
Lemma last_write_wins_for_bob :
  healthy all_up bob_again
  ∧ in_submit bob_again = true
  ∧ in_name bob_again ≠ ""
  ∧ ∃ oid,
      filter (λ d, name_key d = Some (VStr (in_name bob_again)))
             (docs (serve_all ([(all_up, ada); (all_up, bob)]
                               ++ [(all_up, bob_again)])))
      = [stored oid bob_again]
      ∧ delete "_id" (stored oid bob_again) = student_data bob_again.
Proof.
  assert (healthy all_up bob_again) as Hh by (split; [by eexists|done]).
  split; [done|]. split; [done|]. split; [done|].
  apply (proj1 (proj2 (name_is_unique_and_last_write_wins
                         [(all_up, ada); (all_up, bob)])) all_up bob_again);
    done.
Defined.

(** C2 for Bob's profile on the collection that holds Ada's. *)
Lemma roundtrip_for_bob :
  mongo_fault all_up OpUpdateOne = None
  ∧ mongo_fault all_up OpFind = None
  ∧ let w1 := (save_student_data all_up (student_data bob)
                 {| db := serve_all [(all_up, ada)]; screen := [] |}).2 in
    ∃ df,
      (get_students_dataframe all_up w1).1 = Ok df
      ∧ filter (λ row, row = student_data bob) df = [student_data bob]
      ∧ db (save_student_data all_up (student_data bob) w1).2 = db w1.
Proof.
  split; [done|]. split; [done|].
  apply (upsert_then_load_roundtrip [(all_up, ada)] all_up all_up bob []);
    done.
Defined.

(** C3 for a submitted form without a name. *)
Lemma unnamed_form_is_rejected :
  in_name unnamed = ""
  ∧ (collect_student_details unnamed fresh_world).1 = Ok None
  ∧ (in_submit unnamed = true →
     StError "Full Name is required"
     ∈ screen (collect_student_details unnamed fresh_world).2)
  ∧ run all_up unnamed fresh_world
    = (Ok (), {| db := db fresh_world;
                 screen := screen fresh_world ++ run_title :: form_events unnamed |})
  ∧ docs (serve (db fresh_world) (all_up, unnamed)) = docs (db fresh_world).
Proof.
  split; [done|].
  by apply (empty_name_is_rejected all_up unnamed fresh_world).
Defined.

(** C4 on the empty collection. *)
Lemma fresh_dashboard_shows_no_data :
  mongo_fault all_up OpFind = None
  ∧ docs (db fresh_world) = []
  ∧ ∃ shown,
      render_dashboard all_up fresh_world
      = (Ok (), {| db := db fresh_world; screen := screen fresh_world ++ shown |})
      ∧ shown = [dashboard_title; StWarning "No student data available."]
      ∧ filter (λ ev, is_chart ev = true) shown = []
      ∧ (∀ label, sum_list (chart_count label <$> shown) = 0)
      ∧ education_counts [] = Raise (Exn KeyError "'education_level'").
Proof.
  split; [done|]. split; [done|].
  by apply (empty_collection_shows_no_data all_up fresh_world).
Defined.

(** C5 for the frame of Ada (Programming, Cloud Computing) and Bob
    (Programming). *)
Lemma tag_counts_for_ada_and_bob :
  student_data <$> [ada; bob] ≠ []
  ∧ Forall2 (λ (row : document) tags,
               row !! "technical_skills" = Some (VList tags))
      (student_data <$> [ada; bob])
      [["Programming"; "Cloud Computing"]; ["Programming"]]
  ∧ Forall2 (λ (row : document) tags,
               row !! "learning_interests" = Some (VList tags))
      (student_data <$> [ada; bob]) [["Data Science"]; []]
  ∧ skill_counts (student_data <$> [ada; bob])
    = Ok {[ "Programming" := 2; "Cloud Computing" := 1 ]}.
Proof.
  assert (Forall2 (λ (row : document) tags,
                     row !! "technical_skills" = Some (VList tags))
            (student_data <$> [ada; bob])
            [["Programming"; "Cloud Computing"]; ["Programming"]]) as Hs
    by (repeat constructor).
  assert (Forall2 (λ (row : document) tags,
                     row !! "learning_interests" = Some (VList tags))
            (student_data <$> [ada; bob]) [["Data Science"]; []]) as Hi
    by (repeat constructor).
  split; [done|]. split; [done|]. split; [done|].
  by apply (tag_counts_flatten_then_count
              (student_data <$> [ada; bob])
              [["Programming"; "Cloud Computing"]; ["Programming"]]
              [["Data Science"]; []]).
Defined.

(** C9 for Ada's form. *)
Lemma gender_of_ada :
  collect_student_details ada fresh_world
  = (Ok (Some (student_data ada)),
     (collect_student_details ada fresh_world).2)
  ∧ ∃ g, student_data ada !! "gender" = Some (VStr g)
         ∧ g ∈ ["Select"; "Male"; "Female"; "Other"].
Proof.
  assert (collect_student_details ada fresh_world
          = (Ok (Some (student_data ada)),
             (collect_student_details ada fresh_world).2)) as H
    by reflexivity.
  split; [exact H|].
  exact (gender_is_in_enumeration ada fresh_world _ _ H).
Defined.


(** * The mean of the marks of a level *)














(** * Saving: what reaches the page and the collection *)

Lemma main_unfold c e f scr :
  store_inv c →
  mongo_fault e OpCreateIndex = None →
  mongo_late_fault e OpCreateIndex = None →
  main e f {| db := c; screen := scr |}
  = run e f {| db := indexed c; screen := scr |}.
Proof.
  intros Hinv Hci Hcl. unfold main. unfold bind. by rewrite init_app_spec.
Qed.

(** A request that goes through: the page and the collection after it. *)
Lemma main_healthy c e f :
  store_inv c → healthy e f → collected f = Some (student_data f) →
  ∃ r c' text,
    update_one (VStr (in_name f)) (student_data f) (indexed c) = Ok (r, c')
    ∧ main e f {| db := c; screen := [] |}
      = (Ok (), {| db := c'; screen := intake_events f text r |}).
Proof.
  intros Hinv [[text Hg] Hnf] Hc.
  destruct (update_one_app (indexed c) f (store_inv_indexed _ Hinv))
    as (r & c' & l1 & l2 & oid & Hupd & _).
  exists r, c', text. split; [done|].
  rewrite main_unfold by (done || apply Hnf).
  rewrite (run_generation_ok _ _ _ text) by done.
  rewrite (save_student_data_spec _ _ _ r c') by (done || apply Hnf).
  unfold intake_events. simpl. by rewrite <- !app_assoc.
Qed.

(** X1. [save_student_data] never lets an exception out, whatever the
    dictionary and whatever the database does: it returns normally after
    writing exactly one message, a success, an info or an error.  The
    collection is then either as it was or the result of the one upsert,
    and an error goes with an unchanged collection unless the call raised
    after the server had applied the write. *)
Theorem save_student_data_always_reports (e : env) (d : document) (w : world) :
  ∃ msg c',
    save_student_data e d w
    = (Ok (), {| db := c'; screen := screen w ++ [msg] |})
    ∧ (match msg with
       | StSuccess _ | StInfo _ | StError _ => True
       | _ => False
       end)
    ∧ (c' = db w
       ∨ ∃ name r,
           d !! "name" = Some name
           ∧ mongo_fault e OpUpdateOne = None
           ∧ update_one name d (db w) = Ok (r, c'))
    ∧ (mongo_late_fault e OpUpdateOne = None →
       is_error msg = true → c' = db w).
Proof.
  unfold save_student_data, getitem. script.
  destruct (d !! "name") as [name|] eqn:Hname; simpl.
  2:{ eexists _, _. split; [done|]. split; [done|]. split; [by left|done]. }
  destruct (mongo_fault e OpUpdateOne) as [x|] eqn:Hf; script.
  { destruct (exn_cls x); simpl; eexists _, _;
      (split; [done|]; split; [done|]; split; [by left|done]). }
  destruct (mongo_late_fault e OpUpdateOne) as [y|] eqn:Hl; script.
  - destruct (update_one name d (db w)) as [[r c']|x] eqn:Hu; simpl.
    + destruct (exn_cls y); simpl; eexists _, _;
        (split; [done|]; split; [done|]; split; [right; by eexists _, _|done]).
    + destruct (exn_cls x); simpl; eexists _, _;
        (split; [done|]; split; [done|]; split; [by left|done]).
  - destruct (update_one name d (db w)) as [[r c']|x] eqn:Hu; simpl.
    + destruct (option_truthy (upserted_id r)); simpl; eexists _, _;
        (split; [done|]; split; [done|]; split; [right; by eexists _, _|done]).
    + destruct (exn_cls x); simpl; eexists _, _;
        (split; [done|]; split; [done|]; split; [by left|done]).
Qed.

(** X2. Failures of the upsert are shown on the page and [save_student_data]
    returns: a dictionary without a name is reported as the [KeyError] it
    causes, with the collection unchanged; an exception of the call is
    shown as "Error: A profile with the name ... already exists." when it
    is a duplicate-key error and as "An error occurred while saving the
    profile: " and its text otherwise.  When the call failed before the
    server applied it the collection is unchanged; when it failed after,
    the collection holds the upsert although the page shows the error. *)
Theorem save_failures_are_shown (e : env) (f : form_state) (w : world) :
  (∀ d : document,
     d !! "name" = None →
     save_student_data e d w
     = (Ok (),
        {| db := db w;
           screen := screen w ++
             [StError "An error occurred while saving the profile: 'name'"] |}))
  ∧ (∀ x,
       mongo_fault e OpUpdateOne = Some x →
       save_student_data e (student_data f) w
       = (Ok (), {| db := db w; screen := screen w ++ [failure_message x f] |}))
  ∧ (∀ x r c',
       mongo_fault e OpUpdateOne = None →
       mongo_late_fault e OpUpdateOne = Some x →
       update_one (VStr (in_name f)) (student_data f) (db w) = Ok (r, c') →
       save_student_data e (student_data f) w
       = (Ok (), {| db := c'; screen := screen w ++ [failure_message x f] |})).
Proof.
  split; [|split].
  - intros d Hd. unfold save_student_data, getitem. script. by rewrite Hd.
  - intros x Hx. unfold save_student_data, getitem, failure_message. script.
    rewrite student_data_name. simpl. rewrite Hx. script.
    destruct (exn_cls x); simpl; done.
  - intros x r c' Hf Hl Hu. by apply (save_student_data_late _ _ _ r).
Qed.

(** X2 for Ada's profile: no name, the database out of reach, and the
    reply of the upsert lost. *)
Lemma save_failure_shown_for_ada :
  (∅ : document) !! "name" = None
  ∧ save_student_data all_up ∅ fresh_world
    = (Ok (),
       {| db := db fresh_world;
          screen := screen fresh_world ++
            [StError "An error occurred while saving the profile: 'name'"] |})
  ∧ mongo_fault database_down OpUpdateOne
    = Some (Exn ServiceError "connection timed out")
  ∧ save_student_data database_down (student_data ada) fresh_world
    = (Ok (),
       {| db := db fresh_world;
          screen := screen fresh_world ++
            [StError "An error occurred while saving the profile: connection timed out"] |})
  ∧ mongo_late_fault reply_lost OpUpdateOne
    = Some (Exn ServiceError "operation timed out")
  ∧ save_student_data reply_lost (student_data ada) fresh_world
    = (Ok (),
       {| db := {| docs := [stored 0 ada]; unique_name := false; next_oid := 1 |};
          screen := screen fresh_world ++
            [StError "An error occurred while saving the profile: operation timed out"] |}).
Proof.
  split; [done|]. split.
  { exact (proj1 (save_failures_are_shown all_up ada fresh_world) ∅ eq_refl). }
  split; [done|]. split.
  { exact (proj1 (proj2 (save_failures_are_shown database_down ada fresh_world))
             _ eq_refl). }
  split; [done|].
  exact (proj2 (proj2 (save_failures_are_shown reply_lost ada fresh_world))
           (Exn ServiceError "operation timed out")
           (UpdateResult (Some (VObjectId 0)))
           {| docs := [stored 0 ada]; unique_name := false; next_oid := 1 |}
           eq_refl eq_refl eq_refl).
Defined.

(** X3. The message tells a new profile from an update.  On a collection
    the application wrote, a request that goes through ends the page with
    "New student profile created for N" and adds one document when no
    document had the name, and with "Profile updated for N" and the same
    number of documents when one had it. *)
Theorem first_submission_creates_later_ones_update
    (rs : list (env * form_state)) (e : env) (f : form_state) :
  healthy e f → in_submit f = true → in_name f ≠ "" →
  ∃ shown c',
    main e f {| db := serve_all rs; screen := [] |}
    = (Ok (), {| db := c'; screen := shown |})
    ∧ (Forall (λ d, name_key d ≠ Some (VStr (in_name f))) (docs (serve_all rs)) →
       last shown = Some (StSuccess ("New student profile created for " +:+ in_name f))
       ∧ length (docs c') = S (length (docs (serve_all rs))))
    ∧ (Exists (λ d, name_key d = Some (VStr (in_name f))) (docs (serve_all rs)) →
       last shown = Some (StInfo ("Profile updated for " +:+ in_name f))
       ∧ length (docs c') = length (docs (serve_all rs))).
Proof.
  intros Hh Hs Hn.
  destruct (main_healthy (serve_all rs) e f (serve_all_inv rs) Hh
              (collected_submitted f Hs Hn)) as (r & c' & text & Hupd & Hmain).
  exists (intake_events f text r), c'. split; [done|].
  destruct (update_one_app (indexed (serve_all rs)) f
              (store_inv_indexed _ (serve_all_inv rs)))
    as (r' & c'' & l1 & l2 & oid & Hupd' & Hdocs & Hfresh & _ & _ & Hcase).
  rewrite Hupd in Hupd'. injection Hupd' as <- <-.
  unfold intake_events, saved_message. rewrite !app_assoc, last_snoc.
  simpl in Hcase.
  destruct Hcase as [(f' & Hc & Hn' & Hr & _)|(Hc & -> & -> & Hr & _)].
  - rewrite Hr. simpl. split.
    + intros Hnone. exfalso. rewrite Hc in Hnone.
      rewrite Forall_app, Forall_cons in Hnone.
      destruct Hnone as (_ & Hbad & _). apply Hbad.
      by rewrite stored_name, Hn'.
    + intros _. split; [done|]. rewrite Hdocs, Hc.
      by rewrite !length_app.
  - rewrite Hr. simpl. split.
    + intros _. split; [done|]. rewrite Hdocs, Hc.
      rewrite length_app. simpl. lia.
    + intros Hsome. exfalso. rewrite app_nil_r in Hfresh.
      rewrite Hc in Hsome. apply Exists_exists in Hsome as (d & Hd & Hk).
      rewrite Forall_forall in Hfresh. by apply (Hfresh d Hd).
Qed.

(** X3 when Bob, already stored, submits again. *)
Lemma bob_again_is_an_update :
  healthy all_up bob_again
  ∧ in_submit bob_again = true
  ∧ in_name bob_again ≠ ""
  ∧ ∃ shown c',
      main all_up bob_again
        {| db := serve_all [(all_up, ada); (all_up, bob)]; screen := [] |}
      = (Ok (), {| db := c'; screen := shown |})
      ∧ last shown = Some (StInfo "Profile updated for Bob")
      ∧ length (docs c') = 2.
Proof.
  assert (healthy all_up bob_again) as Hh by (split; [by eexists|done]).
  split; [done|]. split; [done|]. split; [done|].
  destruct (first_submission_creates_later_ones_update
              [(all_up, ada); (all_up, bob)] all_up bob_again Hh eq_refl)
    as (shown & c' & Hmain & _ & Hupd); [done|].
  exists shown, c'. split; [done|]. apply Hupd.
  apply Exists_cons_tl, Exists_cons_hd. reflexivity.
Defined.

(** * What a request changes *)

(** A request either leaves the documents alone or comes from a submitted
    form with a name, was answered by the generation service, got through
    [__init__] and ran one upsert that reached the server. *)
Lemma serve_cases_strong c e f :
  store_inv c →
  docs (serve c (e, f)) = docs c
  ∨ (collected f = Some (student_data f)
     ∧ (∃ text, generate_content e (prompt_of f) = Ok text)
     ∧ mongo_fault e OpCreateIndex = None
     ∧ mongo_late_fault e OpCreateIndex = None
     ∧ mongo_fault e OpUpdateOne = None
     ∧ ∃ r, update_one (VStr (in_name f)) (student_data f) (indexed c)
            = Ok (r, serve c (e, f))).
Proof.
  intros Hinv.
  destruct (mongo_fault e OpCreateIndex) as [x|] eqn:Hci.
  { left. by rewrite (serve_index_fault _ _ _ x). }
  destruct (mongo_late_fault e OpCreateIndex) as [x|] eqn:Hcl.
  { left. by rewrite (serve_index_late_fault _ _ _ x). }
  rewrite serve_unfold by done.
  destruct (collected_cases f) as [Hc|Hc].
  { left. by rewrite run_no_profile. }
  destruct (generate_content e (prompt_of f)) as [text|x] eqn:Hg.
  2:{ left. by rewrite (run_generation_fails _ _ _ x). }
  rewrite (run_generation_ok _ _ _ text) by done.
  destruct (mongo_fault e OpUpdateOne) as [x|] eqn:Hup.
  { left. by rewrite (save_student_data_fault _ _ _ x). }
  right. repeat split; [done|by exists text|].
  destruct (update_one_app (indexed c) f (store_inv_indexed _ Hinv))
    as (r & c' & l1 & l2 & oid & Hupd & _).
  exists r. rewrite Hupd. f_equal. f_equal.
  by rewrite (save_student_data_written _ _ _ r c').
Qed.

Lemma collected_Some f :
  collected f = Some (student_data f) → in_submit f = true ∧ in_name f ≠ "".
Proof.
  unfold collected. destruct (in_submit f); [|done].
  destruct (decide (in_name f = "")) as [E|E].
  - by rewrite bool_decide_eq_true_2.
  - done.
Qed.

(** X4. The collection changes only through a valid, fully served
    submission: if a request changes the documents, the form was submitted
    with a name, the generation service answered, the index call of
    [__init__] did not fail, and the upsert was not stopped before it
    reached the server (it may still have raised after the server applied
    it: the documents change then too). *)
Theorem writes_need_a_valid_form_and_both_services
    (rs : list (env * form_state)) (e : env) (f : form_state) :
  docs (serve (serve_all rs) (e, f)) ≠ docs (serve_all rs) →
  in_submit f = true
  ∧ in_name f ≠ ""
  ∧ (∃ text, generate_content e (prompt_of f) = Ok text)
  ∧ mongo_fault e OpCreateIndex = None
  ∧ mongo_late_fault e OpCreateIndex = None
  ∧ mongo_fault e OpUpdateOne = None
  ∧ ∃ r, update_one (VStr (in_name f)) (student_data f) (indexed (serve_all rs))
         = Ok (r, serve (serve_all rs) (e, f)).
Proof.
  intros Hch.
  destruct (serve_cases_strong (serve_all rs) e f (serve_all_inv rs))
    as [Hsame|(Hc & Hg & Hci & Hcl & Hup & Hupd)]; [done|].
  destruct (collected_Some f Hc). done.
Qed.

(** X4 for Ada's first submission, also when the reply of the upsert is
    lost. *)
Lemma ada_was_written :
  docs (serve (serve_all []) (reply_lost, ada)) ≠ docs (serve_all [])
  ∧ in_submit ada = true
  ∧ in_name ada ≠ ""
  ∧ (∃ text, generate_content reply_lost (prompt_of ada) = Ok text)
  ∧ mongo_fault reply_lost OpCreateIndex = None
  ∧ mongo_late_fault reply_lost OpCreateIndex = None
  ∧ mongo_fault reply_lost OpUpdateOne = None
  ∧ ∃ r, update_one (VStr (in_name ada)) (student_data ada)
           (indexed (serve_all []))
         = Ok (r, serve (serve_all []) (reply_lost, ada)).
Proof.
  assert (docs (serve (serve_all []) (reply_lost, ada)) ≠ docs (serve_all []))
    as H by (vm_compute; discriminate).
  split; [exact H|].
  exact (writes_need_a_valid_form_and_both_services [] reply_lost ada H).
Defined.

Lemma filter_other_names n (l : list document) oid f :
  in_name f = n →
  filter (λ d, name_key d ≠ Some (VStr n)) (stored oid f :: l)
  = filter (λ d, name_key d ≠ Some (VStr n)) l.
Proof.
  intros Hn. apply filter_cons_False. rewrite stored_name, Hn. tauto.
Qed.

(** X5. No request removes or alters another profile: the documents under
    other names are the same, in the same order, before and after any
    request, and the number of documents never goes down. *)
Theorem requests_leave_other_profiles_alone
    (rs : list (env * form_state)) (e : env) (f : form_state) :
  filter (λ d, name_key d ≠ Some (VStr (in_name f)))
         (docs (serve (serve_all rs) (e, f)))
  = filter (λ d, name_key d ≠ Some (VStr (in_name f))) (docs (serve_all rs))
  ∧ length (docs (serve_all rs)) ≤ length (docs (serve (serve_all rs) (e, f))).
Proof.
  destruct (serve_cases_strong (serve_all rs) e f (serve_all_inv rs))
    as [->|(_ & _ & _ & _ & _ & r & Hupd)]; [done|].
  destruct (update_one_app (indexed (serve_all rs)) f
              (store_inv_indexed _ (serve_all_inv rs)))
    as (r' & c' & l1 & l2 & oid & Hupd' & Hdocs & _ & _ & _ & Hcase).
  rewrite Hupd in Hupd'. injection Hupd' as _ <-. simpl in Hcase.
  rewrite Hdocs.
  destruct Hcase as [(f' & -> & Hn' & _)|(-> & -> & _)].
  - rewrite !filter_app, !filter_other_names by done.
    split; [done|]. by rewrite !length_app.
  - rewrite filter_app, filter_other_names by done.
    rewrite filter_nil, app_nil_r. split; [done|].
    rewrite length_app. simpl. lia.
Qed.

(** X6. A profile keeps its [_id] when it is submitted again: the document
    stored under a name is replaced in place by the new fields with the
    same [_id]. *)
Theorem resubmission_keeps_the_id
    (rs : list (env * form_state)) (e : env) (f f0 : form_state) (oid : nat) :
  healthy e f → in_submit f = true → in_name f ≠ "" →
  stored oid f0 ∈ docs (serve_all rs) →
  in_name f0 = in_name f →
  stored oid f ∈ docs (serve (serve_all rs) (e, f))
  ∧ length (docs (serve (serve_all rs) (e, f))) = length (docs (serve_all rs)).
Proof.
  intros Hh Hs Hn Hin Hsame.
  destruct (serve_healthy (serve_all rs) e f (serve_all_inv rs) Hh
              (collected_submitted f Hs Hn)) as [r Hupd].
  destruct (update_one_app (indexed (serve_all rs)) f
              (store_inv_indexed _ (serve_all_inv rs)))
    as (r' & c' & l1 & l2 & oid' & Hupd' & Hdocs & Hfresh & _ & _ & Hcase).
  rewrite Hupd in Hupd'. injection Hupd' as _ <-. simpl in Hcase.
  rewrite Forall_app, !Forall_forall in Hfresh. destruct Hfresh as [H1 H2].
  destruct Hcase as [(f' & Hc & Hn' & _)|(Hc & _)].
  - rewrite Hc in Hin.
    assert (stored oid f0 = stored oid' f') as Heq.
    { apply elem_of_app in Hin as [Hin|Hin];
        [|apply elem_of_cons in Hin as [Hin|Hin]; [done|]].
      all: exfalso; first [apply (H1 _ Hin)|apply (H2 _ Hin)];
        by rewrite stored_name, Hsame. }
    assert (oid = oid') as ->.
    { apply (f_equal (λ d : document, d !! "_id")) in Heq.
      unfold stored in Heq. rewrite !lookup_insert_eq in Heq. congruence. }
    rewrite Hdocs, Hc. split; [|by rewrite !length_app].
    apply elem_of_app. right. left.
  - exfalso. rewrite Hc in Hin. apply (H1 _ Hin).
    by rewrite stored_name, Hsame.
Qed.

(** X6 for Bob, stored second with [_id] 1, submitting again. *)
Lemma bob_keeps_his_id :
  healthy all_up bob_again
  ∧ in_submit bob_again = true
  ∧ in_name bob_again ≠ ""
  ∧ stored 1 bob ∈ docs (serve_all [(all_up, ada); (all_up, bob)])
  ∧ in_name bob = in_name bob_again
  ∧ stored 1 bob_again
    ∈ docs (serve (serve_all [(all_up, ada); (all_up, bob)]) (all_up, bob_again))
  ∧ length (docs (serve (serve_all [(all_up, ada); (all_up, bob)])
                    (all_up, bob_again)))
    = length (docs (serve_all [(all_up, ada); (all_up, bob)])).
Proof.
  assert (healthy all_up bob_again) as Hh by (split; [by eexists|done]).
  assert (stored 1 bob ∈ docs (serve_all [(all_up, ada); (all_up, bob)])) as Hin
    by (apply list_elem_of_further, list_elem_of_here).
  split; [done|]. split; [done|]. split; [done|]. split; [done|]. split; [done|].
  by apply (resubmission_keeps_the_id
              [(all_up, ada); (all_up, bob)] all_up bob_again bob 1).
Defined.

(** The collection holds only validated submissions. *)
Lemma serve_all_validated rs :
  Forall (λ d, ∃ oid f, d = stored oid f ∧ collected f = Some (student_data f))
         (docs (serve_all rs)).
Proof.
  induction rs as [|[e f] rs IH] using rev_ind; [constructor|].
  rewrite serve_all_snoc.
  destruct (serve_cases_strong (serve_all rs) e f (serve_all_inv rs))
    as [->|(Hc & _ & _ & _ & _ & r & Hupd)]; [done|].
  destruct (update_one_app (indexed (serve_all rs)) f
              (store_inv_indexed _ (serve_all_inv rs)))
    as (r' & c' & l1 & l2 & oid & Hupd' & Hdocs & _ & _ & _ & Hcase).
  rewrite Hupd in Hupd'. injection Hupd' as _ <-. simpl in Hcase.
  rewrite Hdocs.
  assert (Forall (λ d, ∃ oid f, d = stored oid f
                       ∧ collected f = Some (student_data f)) (l1 ++ l2)) as Hold.
  { destruct Hcase as [(f' & Hc' & _)|(Hc' & -> & _)]; rewrite Hc' in IH.
    - rewrite Forall_app, Forall_cons in IH. rewrite Forall_app. tauto.
    - by rewrite app_nil_r. }
  rewrite Forall_app in Hold. destruct Hold as [Ho1 Ho2].
  rewrite Forall_app, Forall_cons. repeat split; try done.
  by exists oid, f.
Qed.

(** * The fields of a profile *)

Lemma student_data_age f :
  student_data f !! "age" = Some (VInt (number_input_int 16 65 (in_age f))).
Proof.
  unfold student_data. rewrite !lookup_insert_ne by done.
  by rewrite lookup_insert_eq.
Qed.

Lemma student_data_keys f : dom (student_data f) = profile_keys.
Proof.
  unfold student_data, profile_keys. rewrite !dom_insert_L, dom_empty_L.
  simpl. set_solver.
Qed.

Lemma number_input_float_bounds lo hi x :
  PrimFloat.ltb lo lo = false → PrimFloat.ltb hi lo = false →
  PrimFloat.ltb hi hi = false →
  PrimFloat.ltb (number_input_float lo hi x) lo = false
  ∧ PrimFloat.ltb hi (number_input_float lo hi x) = false.
Proof.
  intros Hll Hhl Hhh. unfold number_input_float.
  destruct (PrimFloat.ltb x lo) eqn:E1; [done|].
  by destruct (PrimFloat.ltb hi x) eqn:E2.
Qed.

Lemma multiselect_in_options options chosen :
  multiselect options chosen ⊆ options.
Proof.
  intros s. unfold multiselect. rewrite elem_of_remove_dups, list_elem_of_omap.
  intros (i & _ & Hi). by eapply list_elem_of_lookup_2.
Qed.

Lemma student_data_in_form_domains f : in_form_domains (student_data f).
Proof.
  split; [apply student_data_keys|]. split; [|split; [|split; [|split; [|split; [|split]]]]].
  - exists (number_input_int 16 65 (in_age f)).
    split; [apply student_data_age|]. unfold number_input_int. lia.
  - exists (number_input_float 0%float 100%float (in_previous_marks f)).
    split; [apply student_data_marks|].
    by apply number_input_float_bounds.
  - eexists. split; [apply student_data_gender|].
    by apply selectbox_in_options.
  - eexists. split; [apply student_data_education|].
    by apply selectbox_in_options.
  - eexists. split; [apply student_data_field|].
    by apply selectbox_in_options.
  - eexists. split; [apply student_data_skills|].
    apply multiselect_in_options.
  - eexists. split; [apply student_data_interests|].
    apply multiselect_in_options.
Qed.

(** X7. A profile returned by [collect_student_details] has a name that
    is not empty, exactly the eleven fields of the form, an age from 16
    to 65, marks not below 0 and not above 100, a gender, an education
    level and a field of study among the options of their select boxes,
    and skills and interests taken from their catalogs.  Collecting
    touches neither the collection nor the services. *)
Theorem collected_profile_is_in_form_domains
    (f : form_state) (w w' : world) (d : document) :
  collect_student_details f w = (Ok (Some d), w') →
  (∃ n, d !! "name" = Some (VStr n) ∧ n ≠ "")
  ∧ in_form_domains d
  ∧ db w' = db w.
Proof.
  rewrite collect_student_details_spec. intros [= Hc <-].
  destruct (collected_cases f) as [Hn|Hs]; [congruence|].
  assert (d = student_data f) as -> by congruence.
  destruct (collected_Some f Hs) as [_ Hname].
  split; [|split; [apply student_data_in_form_domains|done]].
  exists (in_name f). split; [apply student_data_name|done].
Qed.

(** X7 for Ada's form. *)
Lemma ada_is_in_form_domains :
  collect_student_details ada fresh_world
  = (Ok (Some (student_data ada)), (collect_student_details ada fresh_world).2)
  ∧ (∃ n, student_data ada !! "name" = Some (VStr n) ∧ n ≠ "")
  ∧ in_form_domains (student_data ada)
  ∧ db (collect_student_details ada fresh_world).2 = db fresh_world.
Proof.
  assert (collect_student_details ada fresh_world
          = (Ok (Some (student_data ada)),
             (collect_student_details ada fresh_world).2)) as H
    by reflexivity.
  split; [exact H|].
  exact (collected_profile_is_in_form_domains ada fresh_world _ _ H).
Defined.

(** X8. Whatever requests were served, every document of the collection
    is a validated profile: its name is a non-empty string, it has the
    eleven fields of the form inside their domains, and its only other
    field is [_id]. *)
Theorem stored_profiles_are_validated
    (rs : list (env * form_state)) (d : document) :
  d ∈ docs (serve_all rs) →
  (∃ n, d !! "name" = Some (VStr n) ∧ n ≠ "")
  ∧ (∃ oid, d !! "_id" = Some (VObjectId oid))
  ∧ in_form_domains (delete "_id" d).
Proof.
  intros Hd. pose proof (serve_all_validated rs) as Hall.
  rewrite Forall_forall in Hall.
  destruct (Hall d Hd) as (oid & f & -> & Hc).
  destruct (collected_Some f Hc) as [_ Hname].
  split; [|split].
  - exists (in_name f). split; [apply stored_name|done].
  - exists oid. unfold stored. by rewrite lookup_insert_eq.
  - rewrite drop_id_stored. apply student_data_in_form_domains.
Qed.

(** X8 for Bob's document after Ada and Bob submitted. *)
Lemma bob_is_stored_validated :
  stored 1 bob ∈ docs (serve_all [(all_up, ada); (all_up, bob)])
  ∧ (∃ n, stored 1 bob !! "name" = Some (VStr n) ∧ n ≠ "")
  ∧ (∃ oid, stored 1 bob !! "_id" = Some (VObjectId oid))
  ∧ in_form_domains (delete "_id" (stored 1 bob)).
Proof.
  assert (stored 1 bob ∈ docs (serve_all [(all_up, ada); (all_up, bob)])) as Hin
    by (apply list_elem_of_further, list_elem_of_here).
  split; [exact Hin|].
  exact (stored_profiles_are_validated _ _ Hin).
Defined.

(** * Requests that store nothing *)

(** X9. When the generation service raises while a valid form is
    processed, [run] raises the same exception: the page shows the form
    and nothing else, no error box among it, and the submitted profile
    does not reach the collection. *)
Theorem generation_failure_loses_the_submission
    (rs : list (env * form_state)) (e : env) (f : form_state) (w : world) (x : exn) :
  in_submit f = true → in_name f ≠ "" →
  generate_content e (prompt_of f) = Raise x →
  run e f w
  = (Raise x, {| db := db w; screen := screen w ++ run_title :: form_events f |})
  ∧ filter (λ ev, is_error ev = true) (run_title :: form_events f) = []
  ∧ docs (serve (serve_all rs) (e, f)) = docs (serve_all rs).
Proof.
  intros Hs Hn Hg. split; [|split].
  - by apply run_generation_fails; [apply collected_submitted|].
  - unfold form_events. rewrite Hs. simpl.
    by rewrite bool_decide_eq_false_2.
  - destruct (serve_cases_strong (serve_all rs) e f (serve_all_inv rs))
      as [->|(_ & [text Ht] & _)]; [done|congruence].
Qed.

(** X9 for Ada's form while the service is down. *)
Lemma ada_is_lost_when_generation_is_down :
  in_submit ada = true
  ∧ in_name ada ≠ ""
  ∧ generate_content generation_down (prompt_of ada)
    = Raise (Exn ServiceError "503 Service Unavailable")
  ∧ run generation_down ada fresh_world
    = (Raise (Exn ServiceError "503 Service Unavailable"),
       {| db := db fresh_world;
          screen := screen fresh_world ++ run_title :: form_events ada |})
  ∧ filter (λ ev, is_error ev = true) (run_title :: form_events ada) = []
  ∧ docs (serve (serve_all []) (generation_down, ada)) = docs (serve_all []).
Proof.
  split; [done|]. split; [done|]. split; [done|].
  by apply (generation_failure_loses_the_submission
              [] generation_down ada fresh_world).
Defined.

(** X10. Until the button is pressed nothing happens but the drawing of
    the form: no validation message (even without a name), no call to the
    generation service or to the database (the result does not depend on
    what they would do), and the collection is untouched. *)
Theorem nothing_happens_before_submit
    (e e' : env) (f : form_state) (w : world) :
  in_submit f = false →
  run e f w
  = (Ok (),
     {| db := db w;
        screen := screen w ++
          [run_title;
           StHeader "Student Profile & Learning Recommendation";
           StSubheader "Academic Information";
           StSubheader "Performance & Skills"] |})
  ∧ run e f w = run e' f w.
Proof.
  intros Hs.
  assert (collected f = None) as Hc by (unfold collected; by rewrite Hs).
  rewrite !run_no_profile by done. unfold form_events. rewrite Hs. done.
Qed.

(** X10 for Bob while he is still typing. *)
Lemma nothing_happens_while_bob_types :
  in_submit bob_typing = false
  ∧ run all_up bob_typing fresh_world
    = (Ok (),
       {| db := db fresh_world;
          screen := screen fresh_world ++
            [run_title;
             StHeader "Student Profile & Learning Recommendation";
             StSubheader "Academic Information";
             StSubheader "Performance & Skills"] |})
  ∧ run all_up bob_typing fresh_world = run generation_down bob_typing fresh_world.
Proof.
  split; [done|].
  by apply (nothing_happens_before_submit all_up generation_down
              bob_typing fresh_world).
Defined.

(** * What the generation service is sent *)

(** X11. The analysis depends on five fields only: two dictionaries with
    the same education level, field of study, marks, skills and interests
    get the same result from [analyze_student_profile], whatever their
    name, email, phone, roll number, age and gender; and the call writes
    nothing to the page or the collection. *)
Theorem analysis_ignores_personal_fields
    (e : env) (d d' : document) (w : world) :
  d !! "education_level" = d' !! "education_level" →
  d !! "field_of_study" = d' !! "field_of_study" →
  d !! "previous_marks" = d' !! "previous_marks" →
  d !! "technical_skills" = d' !! "technical_skills" →
  d !! "learning_interests" = d' !! "learning_interests" →
  analyze_student_profile e d w = analyze_student_profile e d' w
  ∧ (analyze_student_profile e d w).2 = w.
Proof.
  intros H1 H2 H3 H4 H5. unfold analyze_student_profile, getitem. script.
  rewrite H1, H2, H3, H4, H5. split; [done|].
  destruct (d' !! "education_level"); simpl; [|done].
  destruct (d' !! "field_of_study"); simpl; [|done].
  destruct (d' !! "previous_marks"); simpl; [|done].
  destruct (d' !! "technical_skills") as [s|]; simpl; [|done].
  destruct (join ", " s); simpl; [|done].
  destruct (d' !! "learning_interests") as [i|]; simpl; [|done].
  destruct (join ", " i); simpl; [|done].
  done.
Qed.

(** X11 for Ada's submission and the same answers sent under the name
    Zed. *)
Lemma ada_and_zed_get_the_same_analysis :
  student_data ada !! "education_level" = student_data ada_as_zed !! "education_level"
  ∧ student_data ada !! "field_of_study" = student_data ada_as_zed !! "field_of_study"
  ∧ student_data ada !! "previous_marks" = student_data ada_as_zed !! "previous_marks"
  ∧ student_data ada !! "technical_skills" = student_data ada_as_zed !! "technical_skills"
  ∧ student_data ada !! "learning_interests"
    = student_data ada_as_zed !! "learning_interests"
  ∧ analyze_student_profile all_up (student_data ada) fresh_world
    = analyze_student_profile all_up (student_data ada_as_zed) fresh_world
  ∧ (analyze_student_profile all_up (student_data ada) fresh_world).2 = fresh_world.
Proof.
  repeat (split; [reflexivity|]).
  apply (analysis_ignores_personal_fields all_up (student_data ada)
           (student_data ada_as_zed) fresh_world); reflexivity.
Defined.

(** * Scripts that only read *)

Lemma keeps_db_ret {A} (a : A) : keeps_db (ret a).
Proof. by intros w. Qed.

Lemma keeps_db_raise {A} (x : exn) : keeps_db (@raise A x).
Proof. by intros w. Qed.

Lemma keeps_db_emit ev : keeps_db (emit ev).
Proof. by intros w. Qed.

Lemma keeps_db_lift {A} (o : outcome A) : keeps_db (lift o).
Proof. by intros w. Qed.

Lemma keeps_db_get_db : keeps_db get_db.
Proof. by intros w. Qed.

Lemma keeps_db_bind {A B} (c : M A) (k : A → M B) :
  keeps_db c → (∀ a, keeps_db (k a)) → keeps_db (bind c k).
Proof.
  intros Hc Hk w. unfold bind. specialize (Hc w).
  destruct (c w) as [[a|x] w1]; simpl in *; [|done].
  by rewrite Hk.
Qed.

Lemma keeps_db_mongo_call {A} e op (c : M A) :
  keeps_db c → keeps_db (mongo_call e op c).
Proof.
  intros Hc. unfold mongo_call.
  destruct (mongo_fault e op); [apply keeps_db_raise|].
  destruct (if is_write op then mongo_late_fault e op else None); [|done].
  apply keeps_db_bind; [done|]. intros _. apply keeps_db_raise.
Qed.

Lemma keeps_db_get_students_dataframe e : keeps_db (get_students_dataframe e).
Proof.
  unfold get_students_dataframe. apply keeps_db_bind.
  - apply keeps_db_mongo_call, keeps_db_bind; [apply keeps_db_get_db|].
    intros c. apply keeps_db_ret.
  - intros ds. destruct (negb _); apply keeps_db_ret.
Qed.

Lemma keeps_db_render_charts df : keeps_db (render_charts df).
Proof.
  unfold render_charts.
  repeat first
    [ apply keeps_db_emit | apply keeps_db_lift
    | apply keeps_db_bind; [|intros ?] ].
Qed.

(** X12. The dashboard only reads: whatever the collection holds and
    whether or not drawing ends in an exception, [render_dashboard] leaves
    the collection exactly as it was. *)
Theorem render_dashboard_is_read_only (e : env) (w : world) :
  db (render_dashboard e w).2 = db w.
Proof.
  revert w. change (keeps_db (render_dashboard e)).
  unfold render_dashboard. apply keeps_db_bind; [apply keeps_db_emit|].
  intros _.
  apply keeps_db_bind; [apply keeps_db_get_students_dataframe|]. intros df.
  destruct (df_empty df); [apply keeps_db_emit|apply keeps_db_render_charts].
Qed.

(** X13. The dashboard has no handler around the database: when [find]
    raises, [render_dashboard] raises the same exception with only the
    title on the page. *)
Theorem find_failure_leaves_the_dashboard (e : env) (w : world) (x : exn) :
  mongo_fault e OpFind = Some x →
  render_dashboard e w
  = (Raise x, {| db := db w; screen := screen w ++ [dashboard_title] |}).
Proof.
  intros Hx. unfold render_dashboard, get_students_dataframe. script.
  by rewrite Hx.
Qed.

(** X13 when the database cannot be reached. *)
Lemma dashboard_fails_when_find_fails :
  mongo_fault find_down OpFind = Some (Exn ServiceError "no servers found")
  ∧ render_dashboard find_down fresh_world
    = (Raise (Exn ServiceError "no servers found"),
       {| db := db fresh_world;
          screen := screen fresh_world ++ [dashboard_title] |}).
Proof.
  split; [done|].
  by apply (find_failure_leaves_the_dashboard find_down fresh_world).
Defined.

(** * The frame the dashboard reads *)

Lemma no_id_column (ds : list document) : "_id" ∉ columns (drop "_id" ds).
Proof.
  unfold columns, drop. rewrite elem_of_union_list.
  intros (X & HX & Hin).
  apply list_elem_of_fmap in HX as (d' & -> & Hd').
  apply list_elem_of_fmap in Hd' as (d & -> & _).
  rewrite dom_delete_L in Hin. apply elem_of_difference in Hin as [_ Hne].
  apply Hne. by apply elem_of_singleton.
Qed.

(** X14. The frame [get_students_dataframe] returns has one row per
    document, in the order of the collection, each row being its document
    without [_id]: no [_id] column is left, every other field is kept, and
    reading changes neither the page nor the collection. *)
Theorem dataframe_is_the_collection_without_id
    (e : env) (w w' : world) (df : frame) :
  get_students_dataframe e w = (Ok df, w') →
  w' = w
  ∧ length df = length (docs (db w))
  ∧ ("_id" ∉ columns df)
  ∧ (∀ i (d : document),
       docs (db w) !! i = Some d →
       ∃ row : document,
         df !! i = Some row ∧ (∀ k, k ≠ "_id" → row !! k = d !! k)).
Proof.
  destruct (mongo_fault e OpFind) as [x|] eqn:Hf.
  { unfold get_students_dataframe. script. rewrite Hf. by script. }
  rewrite get_students_dataframe_spec by done.
  intros [= <- <-]. split; [done|]. split; [|split].
  - unfold drop. by rewrite length_fmap.
  - apply no_id_column.
  - intros i d Hd. exists (delete "_id" d). split.
    + unfold drop. by rewrite list_lookup_fmap, Hd.
    + intros k Hk. by rewrite lookup_delete_ne.
Qed.

(** X14 on the collection that holds Ada's profile. *)
Lemma dataframe_of_ada :
  get_students_dataframe all_up {| db := serve_all [(all_up, ada)]; screen := [] |}
  = (Ok [student_data ada], {| db := serve_all [(all_up, ada)]; screen := [] |})
  ∧ length [student_data ada] = length (docs (serve_all [(all_up, ada)]))
  ∧ ("_id" ∉ columns [student_data ada]).
Proof.
  assert (get_students_dataframe all_up
            {| db := serve_all [(all_up, ada)]; screen := [] |}
          = (Ok [student_data ada],
             {| db := serve_all [(all_up, ada)]; screen := [] |})) as H
    by (vm_compute; reflexivity).
  split; [exact H|].
  destruct (dataframe_is_the_collection_without_id _ _ _ _ H)
    as (_ & Hlen & Hid & _).
  by split.
Defined.

Lemma docs_are_profiles c :
  store_inv c → ∃ fs, drop "_id" (docs c) = student_data <$> fs.
Proof.
  intros [Hall _]. induction Hall as [|d ds (oid & f & ->) _ [fs IH]].
  - by exists [].
  - exists (f :: fs). unfold drop in *. rewrite !fmap_cons, drop_id_stored.
    by rewrite IH.
Qed.

Lemma profiles_not_empty (fs : list form_state) :
  fs ≠ [] → df_empty (student_data <$> fs) = false.
Proof.
  intros Hne. destruct fs as [|f fs]; [done|].
  assert ("name" ∈ columns (student_data <$> f :: fs)) as Hin.
  { unfold columns. apply elem_of_union_list. exists (dom (student_data f)).
    split; [rewrite !fmap_cons; left|].
    apply elem_of_dom. by rewrite student_data_name. }
  unfold df_empty. rewrite bool_decide_eq_false_2 by done.
  rewrite bool_decide_eq_false_2; [done|].
  intros Hcols. rewrite Hcols in Hin. exact (not_elem_of_empty _ Hin).
Qed.


(** * What the count charts add up to *)

Lemma total_insert_fresh (m : gmap string nat) s n :
  m !! s = None → total (<[ s := n ]> m) = n + total m.
Proof.
  intros Hs. unfold total. apply map_fold_insert_L; [|done].
  intros. lia.
Qed.

Lemma total_count_label m s : total (count_label m s) = S (total m).
Proof.
  unfold count_label. destruct (m !! s) as [k|] eqn:Hs; simpl.
  - rewrite <- insert_delete_eq.
    rewrite total_insert_fresh by apply lookup_delete_eq.
    rewrite <- (insert_delete_id m s k Hs) at 2.
    rewrite total_insert_fresh by apply lookup_delete_eq. done.
  - by rewrite total_insert_fresh.
Qed.

Lemma total_foldl_count_label l m :
  total (foldl count_label m l) = total m + length l.
Proof.
  revert m. induction l as [|s l IH]; intros m; simpl; [lia|].
  rewrite IH, total_count_label. lia.
Qed.

Lemma total_tally l : total (tally l) = length l.
Proof. unfold tally. by rewrite total_foldl_count_label. Qed.

Lemma occurrences_zero s l : occurrences s l = 0 ↔ s ∉ l.
Proof.
  induction l as [|x l IH]; simpl.
  - split; [intros _; apply not_elem_of_nil|done].
  - rewrite occurrences_cons, not_elem_of_cons.
    destruct (decide (x = s)) as [->|Hne].
    + split; [lia|tauto].
    + rewrite IH. split; [intros ?; split; congruence|tauto].
Qed.

Lemma tally_is_Some l s : is_Some (tally l !! s) ↔ s ∈ l.
Proof.
  rewrite tally_lookup. destruct (decide (occurrences s l = 0)) as [E|E].
  - apply occurrences_zero in E. split; [by intros [? ?]|done].
  - split; [|by eauto]. intros _.
    destruct (decide (s ∈ l)) as [?|Hn]; [done|].
    by apply occurrences_zero in Hn.
Qed.

(** X16. The count charts count every profile once and every tag once:
    on the frame of the profiles [fs], the counts by education level and
    the counts by field of study each add up to the number of profiles,
    their labels are options of the form, and the skill and interest
    counts add up to the number of tags ticked over all profiles. *)
Theorem counts_add_up (fs : list form_state) :
  fs ≠ [] →
  ∃ by_education by_field by_skill by_interest,
    education_counts (student_data <$> fs) = Ok by_education
    ∧ field_counts (student_data <$> fs) = Ok by_field
    ∧ skill_counts (student_data <$> fs) = Ok by_skill
    ∧ interest_counts (student_data <$> fs) = Ok by_interest
    ∧ total by_education = length fs
    ∧ total by_field = length fs
    ∧ total by_skill = sum_list (length ∘ skills_of <$> fs)
    ∧ total by_interest = sum_list (length ∘ interests_of <$> fs)
    ∧ (∀ s, is_Some (by_education !! s) → s ∈ education_level_options)
    ∧ (∀ s, is_Some (by_field !! s) → s ∈ field_of_study_options)
    ∧ (∀ s, is_Some (by_skill !! s) → s ∈ technical_skills_options)
    ∧ (∀ s, is_Some (by_interest !! s) → s ∈ learning_interests_options).
Proof.
  intros Hne.
  exists (tally (education_of <$> fs)), (tally (field_of <$> fs)),
    (tally (fs ≫= skills_of)), (tally (fs ≫= interests_of)).
  rewrite education_counts_profiles, field_counts_profiles,
    skill_counts_profiles, interest_counts_profiles by done.
  rewrite !total_tally, !length_fmap.
  assert (∀ g : form_state → list string,
            length (fs ≫= g) = sum_list (length ∘ g <$> fs)) as Hsum.
  { intros g. clear. induction fs as [|f l IH]; [done|].
    rewrite bind_cons, length_app, fmap_cons. simpl. by rewrite IH. }
  rewrite !Hsum. repeat split; try done.
  - intros s Hs%tally_is_Some. apply list_elem_of_fmap in Hs as (f & -> & _).
    by apply selectbox_in_options.
  - intros s Hs%tally_is_Some. apply list_elem_of_fmap in Hs as (f & -> & _).
    by apply selectbox_in_options.
  - intros s Hs%tally_is_Some. apply list_elem_of_bind in Hs as (f & Hs & _).
    exact (multiselect_in_options _ _ s Hs).
  - intros s Hs%tally_is_Some. apply list_elem_of_bind in Hs as (f & Hs & _).
    exact (multiselect_in_options _ _ s Hs).
Qed.

(** X16 for Ada, Bob and Cyd. *)
Lemma counts_of_three_add_up :
  [ada; bob; cyd] ≠ []
  ∧ ∃ by_education by_field by_skill by_interest,
      education_counts (student_data <$> [ada; bob; cyd]) = Ok by_education
      ∧ field_counts (student_data <$> [ada; bob; cyd]) = Ok by_field
      ∧ skill_counts (student_data <$> [ada; bob; cyd]) = Ok by_skill
      ∧ interest_counts (student_data <$> [ada; bob; cyd]) = Ok by_interest
      ∧ total by_education = 3
      ∧ total by_field = 3
      ∧ total by_skill = 3
      ∧ total by_interest = 2.
Proof.
  split; [done|].
  destruct (counts_add_up [ada; bob; cyd])
    as (m1 & m2 & m3 & m4 & H1 & H2 & H3 & H4 & T1 & T2 & T3 & T4 & _);
    [done|].
  exists m1, m2, m3, m4. by repeat split.
Defined.

(** * Levels of the mean chart *)

Lemma labelled_rows s (fs : list form_state) :
  Exists (λ r : option string * option float, r.1 = Some s)
         ((λ f, (Some (education_of f), mark_of f)) <$> fs)
  ↔ s ∈ education_of <$> fs.
Proof.
  rewrite Exists_exists. split.
  - intros (r & Hr & Hs). apply list_elem_of_fmap in Hr as (f & -> & Hf).
    simpl in Hs. injection Hs as <-. by apply list_elem_of_fmap_2.
  - intros (f & -> & Hf)%list_elem_of_fmap.
    exists (Some (education_of f), mark_of f). split; [|done].
    by apply (list_elem_of_fmap_2 (λ f, (Some (education_of f), mark_of f))).
Qed.

(** X17. The mean chart and the education chart show the same levels: on
    the frame of the profiles [fs] a level has a mean exactly when it has
    a count, and those are the levels some profile has. *)
Theorem mean_chart_has_the_counted_levels (fs : list form_state) :
  fs ≠ [] →
  ∃ counts means,
    education_counts (student_data <$> fs) = Ok counts
    ∧ avg_marks (student_data <$> fs) = Ok means
    ∧ ∀ level,
        (is_Some (means !! level) ↔ is_Some (counts !! level))
        ∧ (is_Some (counts !! level) ↔ level ∈ education_of <$> fs).
Proof.
  intros Hne. unfold avg_marks.
  rewrite education_counts_profiles, grouped_marks_profiles by done.
  eexists _, _. split; [done|]. split; [done|]. intros level.
  rewrite tally_is_Some. split; [|done].
  rewrite lookup_fmap, fmap_is_Some, foldl_add_to_group_lookup, lookup_empty.
  rewrite <- labelled_rows.
  destruct (decide (Exists _ _)) as [E|E]; [by split; eauto|].
  split; [by intros [? ?]|done].
Qed.

(** X17 for Ada, Bob and Cyd, all undergraduates. *)
Lemma levels_of_three_undergraduates :
  [ada; bob; cyd] ≠ []
  ∧ ∃ counts means,
      education_counts (student_data <$> [ada; bob; cyd]) = Ok counts
      ∧ avg_marks (student_data <$> [ada; bob; cyd]) = Ok means
      ∧ ∀ level,
          (is_Some (means !! level) ↔ is_Some (counts !! level))
          ∧ (is_Some (counts !! level)
             ↔ level ∈ education_of <$> [ada; bob; cyd]).
Proof.
  split; [done|].
  by apply (mean_chart_has_the_counted_levels [ada; bob; cyd]).
Defined.

(** * Frames with missing cells *)

Lemma iterate_missing_cell (cells : list (option value)) :
  Forall (λ c, c = None ∨ ∃ l, c = Some (VList l)) cells →
  Exists (λ c, c = None) cells →
  outcome_map iterate_cell cells
  = Raise (Exn TypeError "'float' object is not iterable").
Proof.
  induction 1 as [|c cells Hc _ IH]; intros Hex.
  - by apply Exists_nil in Hex.
  - destruct Hc as [->|[l ->]]; [done|].
    apply Exists_cons in Hex as [?|Hex]; [done|].
    simpl. by rewrite IH.
Qed.

Lemma missing_cell_raises k (df : frame) :
  Forall (λ row : document,
            row !! k = None ∨ ∃ l, row !! k = Some (VList l)) df →
  Exists (λ row : document, is_Some (row !! k)) df →
  Exists (λ row : document, row !! k = None) df →
  outcome_bind (column k df) (λ cells,
    outcome_bind (flatten cells) (λ all, Ok (tally all)))
  = Raise (Exn TypeError "'float' object is not iterable").
Proof.
  intros Hall Hsome Hnone.
  apply Exists_exists in Hsome as (row & Hrow & Hk).
  rewrite (column_present _ df row) by done. simpl. unfold flatten.
  rewrite iterate_missing_cell; [done| |].
  - by apply Forall_fmap.
  - apply Exists_fmap. by simpl.
Qed.

(** X18. One profile without a skills list breaks the skills chart: when
    some row has a list under [technical_skills] and some row has no such
    field at all, [skill_counts] raises [TypeError] ("'float' object is not
    iterable"), because the missing cell is NaN in the frame and the list
    comprehension iterates it. *)
Theorem missing_skill_list_breaks_the_chart (df : frame) :
  Forall (λ row : document,
            row !! "technical_skills" = None
            ∨ ∃ l, row !! "technical_skills" = Some (VList l)) df →
  Exists (λ row : document, is_Some (row !! "technical_skills")) df →
  Exists (λ row : document, row !! "technical_skills" = None) df →
  skill_counts df = Raise (Exn TypeError "'float' object is not iterable").
Proof. apply missing_cell_raises. Qed.

(** X18 for Ada's profile next to a document that has only a name. *)
Lemma skill_chart_breaks_on_a_bare_document :
  Forall (λ row : document,
            row !! "technical_skills" = None
            ∨ ∃ l, row !! "technical_skills" = Some (VList l))
         [student_data ada; {[ "name" := VStr "Eve" ]}]
  ∧ Exists (λ row : document, is_Some (row !! "technical_skills"))
           [student_data ada; {[ "name" := VStr "Eve" ]}]
  ∧ Exists (λ row : document, row !! "technical_skills" = None)
           [student_data ada; {[ "name" := VStr "Eve" ]}]
  ∧ skill_counts [student_data ada; {[ "name" := VStr "Eve" ]}]
    = Raise (Exn TypeError "'float' object is not iterable").
Proof.
  assert (Forall (λ row : document,
            row !! "technical_skills" = None
            ∨ ∃ l, row !! "technical_skills" = Some (VList l))
         [student_data ada; {[ "name" := VStr "Eve" ]}]) as H1
    by (constructor; [right; by eexists|constructor; [by left|constructor]]).
  assert (Exists (λ row : document, is_Some (row !! "technical_skills"))
            [student_data ada; {[ "name" := VStr "Eve" ]}]) as H2
    by (by apply Exists_cons_hd).
  assert (Exists (λ row : document, row !! "technical_skills" = None)
            [student_data ada; {[ "name" := VStr "Eve" ]}]) as H3
    by (by apply Exists_cons_tl, Exists_cons_hd).
  split; [exact H1|]. split; [exact H2|]. split; [exact H3|].
  exact (missing_skill_list_breaks_the_chart _ H1 H2 H3).
Defined.

(** X19. One profile without an interests list breaks the interests chart
    in the same way: when some row has a list under [learning_interests]
    and some row has no such field, [interest_counts] raises [TypeError]
    ("'float' object is not iterable"). *)
Theorem missing_interest_list_breaks_the_chart (df : frame) :
  Forall (λ row : document,
            row !! "learning_interests" = None
            ∨ ∃ l, row !! "learning_interests" = Some (VList l)) df →
  Exists (λ row : document, is_Some (row !! "learning_interests")) df →
  Exists (λ row : document, row !! "learning_interests" = None) df →
  interest_counts df = Raise (Exn TypeError "'float' object is not iterable").
Proof. apply missing_cell_raises. Qed.

(** X19 for Ada's profile next to a document that has skills but no
    interests. *)
Lemma interest_chart_breaks_without_interests :
  Forall (λ row : document,
            row !! "learning_interests" = None
            ∨ ∃ l, row !! "learning_interests" = Some (VList l))
         [student_data ada;
          {[ "name" := VStr "Eve"; "technical_skills" := VList ["Programming"] ]}]
  ∧ Exists (λ row : document, is_Some (row !! "learning_interests"))
           [student_data ada;
            {[ "name" := VStr "Eve"; "technical_skills" := VList ["Programming"] ]}]
  ∧ Exists (λ row : document, row !! "learning_interests" = None)
           [student_data ada;
            {[ "name" := VStr "Eve"; "technical_skills" := VList ["Programming"] ]}]
  ∧ interest_counts
      [student_data ada;
       {[ "name" := VStr "Eve"; "technical_skills" := VList ["Programming"] ]}]
    = Raise (Exn TypeError "'float' object is not iterable").
Proof.
  assert (Forall (λ row : document,
            row !! "learning_interests" = None
            ∨ ∃ l, row !! "learning_interests" = Some (VList l))
         [student_data ada;
          {[ "name" := VStr "Eve"; "technical_skills" := VList ["Programming"] ]}])
    as H1
    by (constructor; [right; by eexists|constructor; [by left|constructor]]).
  assert (Exists (λ row : document, is_Some (row !! "learning_interests"))
            [student_data ada;
             {[ "name" := VStr "Eve"; "technical_skills" := VList ["Programming"] ]}])
    as H2 by (by apply Exists_cons_hd).
  assert (Exists (λ row : document, row !! "learning_interests" = None)
            [student_data ada;
             {[ "name" := VStr "Eve"; "technical_skills" := VList ["Programming"] ]}])
    as H3 by (by apply Exists_cons_tl, Exists_cons_hd).
  split; [exact H1|]. split; [exact H2|]. split; [exact H3|].
  exact (missing_interest_list_breaks_the_chart _ H1 H2 H3).
Defined.

(** * The page of the dashboard *)

Lemma tally_empty l : tally l = ∅ ↔ l = [].
Proof.
  split; [|by intros ->].
  destruct l as [|s l]; [done|]. intros He.
  assert (is_Some (tally (s :: l) !! s)) as [n Hn]
    by (apply tally_is_Some; left).
  rewrite He in Hn. by rewrite lookup_empty in Hn.
Qed.

Lemma px_bar_nonempty name (l : list string) :
  l ≠ [] → px_bar name (tally l) = Ok (BarChart name (tally l)).
Proof.
  intros Hl. unfold px_bar. rewrite bool_decide_eq_false_2; [done|].
  by rewrite tally_empty.
Qed.

Lemma px_bar_no_rows name :
  px_bar name (tally []) = Raise px_bar_empty.
Proof. done. Qed.

Lemma means_nonempty (fs : list form_state) :
  fs ≠ [] →
  group_mean <$> foldl add_to_group ∅
                   ((λ f, (Some (education_of f), mark_of f)) <$> fs) ≠ ∅.
Proof.
  intros Hne He. destruct fs as [|f fs]; [done|].
  apply (f_equal (λ m : gmap string float, m !! education_of f)) in He.
  rewrite lookup_fmap, foldl_add_to_group_lookup, lookup_empty in He.
  rewrite decide_True in He; [done|].
  apply labelled_rows. rewrite fmap_cons. left.
Qed.

Lemma render_charts_profiles (fs : list form_state) w :
  fs ≠ [] →
  ∃ means,
    avg_marks (student_data <$> fs) = Ok means
    ∧ render_charts (student_data <$> fs) w
      = if decide (fs ≫= skills_of = [])
        then (Raise px_bar_empty,
              {| db := db w; screen := screen w ++ upper_chart_events fs means |})
        else (Ok (),
              {| db := db w;
                 screen := screen w ++ upper_chart_events fs means
                           ++ lower_chart_events fs |}).
Proof.
  intros Hne. eexists. unfold render_charts, avg_marks, box_marks.
  rewrite education_counts_profiles, field_counts_profiles,
    skill_counts_profiles, interest_counts_profiles,
    grouped_marks_profiles by done.
  rewrite (profile_column fs Hne "previous_marks"
             (λ f, VFloat (number_input_float 0%float 100%float
                             (in_previous_marks f))))
    by apply student_data_marks.
  split; [done|]. script.
  rewrite px_bar_nonempty by (by destruct fs). script.
  unfold px_bar_means.
  rewrite bool_decide_eq_false_2 by by apply means_nonempty. script.
  destruct (decide (fs ≫= skills_of = [])) as [->|Hs].
  - rewrite px_bar_no_rows. script.
    unfold upper_chart_events. by rewrite <- !app_assoc.
  - rewrite px_bar_nonempty by done. script.
    unfold upper_chart_events, lower_chart_events. by rewrite <- !app_assoc.
Qed.

(** X15. On a collection the application wrote that is not empty, the
    dashboard draws, under the title, the education pie, the field bar
    chart, the marks box plot and the mean-marks bar chart of the stored
    profiles.  When some stored profile has a skill ticked it goes on with
    the skills bar chart, the interests pie and the table and returns
    normally; when no stored profile has a skill, [px.bar] refuses the
    empty skills count and [render_dashboard] raises [ValueError] below the
    heading of the skills chart. *)
Theorem dashboard_draws_the_stored_profiles
    (rs : list (env * form_state)) (e : env) :
  mongo_fault e OpFind = None →
  docs (serve_all rs) ≠ [] →
  ∃ fs means,
    drop "_id" (docs (serve_all rs)) = student_data <$> fs
    ∧ length fs = length (docs (serve_all rs))
    ∧ avg_marks (student_data <$> fs) = Ok means
    ∧ (fs ≫= skills_of ≠ [] →
       render_dashboard e {| db := serve_all rs; screen := [] |}
       = (Ok (), {| db := serve_all rs;
                    screen := dashboard_title :: upper_chart_events fs means
                              ++ lower_chart_events fs |}))
    ∧ (fs ≫= skills_of = [] →
       render_dashboard e {| db := serve_all rs; screen := [] |}
       = (Raise px_bar_empty,
          {| db := serve_all rs;
             screen := dashboard_title :: upper_chart_events fs means |})).
Proof.
  intros Hnf Hne.
  destruct (docs_are_profiles (serve_all rs) (serve_all_inv rs)) as [fs Hfs].
  assert (length fs = length (docs (serve_all rs))) as Hlen.
  { apply (f_equal length) in Hfs. unfold drop in Hfs.
    by rewrite !length_fmap in Hfs. }
  assert (fs ≠ []) as Hfne.
  { intros ->. destruct (docs (serve_all rs)); [done|]. simpl in Hlen. lia. }
  destruct (render_charts_profiles fs
              {| db := serve_all rs; screen := [dashboard_title] |} Hfne)
    as (means & Hmeans & Hcharts).
  exists fs, means. split; [done|]. split; [done|]. split; [done|].
  assert (render_dashboard e {| db := serve_all rs; screen := [] |}
          = render_charts (student_data <$> fs)
              {| db := serve_all rs; screen := [dashboard_title] |}) as ->.
  { unfold render_dashboard. script.
    rewrite get_students_dataframe_spec by done. simpl. rewrite Hfs.
    by rewrite profiles_not_empty. }
  rewrite Hcharts. split; intros Hs.
  - by rewrite decide_False.
  - by rewrite decide_True.
Qed.

(** X15 on the collection that holds Ada's and Bob's profiles. *)
Lemma dashboard_of_ada_and_bob :
  mongo_fault all_up OpFind = None
  ∧ docs (serve_all [(all_up, ada); (all_up, bob)]) ≠ []
  ∧ ∃ fs means,
      drop "_id" (docs (serve_all [(all_up, ada); (all_up, bob)]))
      = student_data <$> fs
      ∧ length fs = length (docs (serve_all [(all_up, ada); (all_up, bob)]))
      ∧ avg_marks (student_data <$> fs) = Ok means
      ∧ (fs ≫= skills_of ≠ [] →
         render_dashboard all_up
           {| db := serve_all [(all_up, ada); (all_up, bob)]; screen := [] |}
         = (Ok (), {| db := serve_all [(all_up, ada); (all_up, bob)];
                      screen := dashboard_title :: upper_chart_events fs means
                                ++ lower_chart_events fs |}))
      ∧ (fs ≫= skills_of = [] →
         render_dashboard all_up
           {| db := serve_all [(all_up, ada); (all_up, bob)]; screen := [] |}
         = (Raise px_bar_empty,
            {| db := serve_all [(all_up, ada); (all_up, bob)];
               screen := dashboard_title :: upper_chart_events fs means |})).
Proof.
  split; [done|]. split; [done|].
  by apply (dashboard_draws_the_stored_profiles
              [(all_up, ada); (all_up, bob)] all_up).
Defined.

(** The two ways the page ends, on concrete collections: with Ada and Bob
    stored the dashboard returns, with only Cyd, who ticked no skill, it
    raises. *)
Lemma dashboard_ends_both_ways :
  (render_dashboard all_up
     {| db := serve_all [(all_up, ada); (all_up, bob)]; screen := [] |}).1
  = Ok ()
  ∧ (render_dashboard all_up
       {| db := serve_all [(all_up, cyd)]; screen := [] |}).1
    = Raise px_bar_empty.
Proof. split; vm_compute; reflexivity. Qed.
